(** * terraform-provider-livekit: provider configuration and the access-token resource

    A shallow embedding of [internal/provider/provider.go] and
    [internal/provider/access_token_resource.go].  The Go standard library
    ([time.ParseDuration]), the LiveKit [auth] package and the Terraform plugin
    framework are external to the repository; the parts of them the provider
    calls are modelled in their own modules below, each stating what it
    models. *)

From Stdlib Require Import ZArith Lia Ascii String List.
From Stdlib Require Import Floats.SpecFloat.
From stdpp Require Import base gmap strings list fin_maps.

Local Open Scope string_scope.
Local Open Scope Z_scope.

(** Go functions returning [(T, error)]: an [error] is its message. *)
Definition error := string.

Inductive result (A : Type) : Type :=
| Ok (a : A)
| Err (e : error).
Arguments Ok {A} a.
Arguments Err {A} e.

Definition is_ok {A} (r : result A) : bool :=
  match r with Ok _ => true | Err _ => false end.

(** ** Go's [time.ParseDuration] (standard library, [time/format.go])

    The parser of current Go releases: the value is accumulated in a uint64
    of nanoseconds, with an overflow check after every step, and fractions go
    through float64. *)
Module time.

(** [time.Duration] is an int64 count of nanoseconds. *)
Definition Duration := Z.

Definition uint64 (z : Z) : Z := z mod 2 ^ 64.
Definition int64 (z : Z) : Z := (z + 2 ^ 63) mod 2 ^ 64 - 2 ^ 63.

Definition Nanosecond : Z := 1.
Definition Microsecond : Z := 1000 * Nanosecond.
Definition Millisecond : Z := 1000 * Microsecond.
Definition Second : Z := 1000 * Millisecond.
Definition Minute : Z := 60 * Second.
Definition Hour : Z := 60 * Minute.

(** float64 is IEEE binary64, round to nearest even. *)
Definition float64 := spec_float.
Definition f64_of_uint64 (n : Z) : float64 := binary_normalize 53 1024 n 0 false.
Definition f64_mul : float64 -> float64 -> float64 := SFmul 53 1024.
Definition f64_div : float64 -> float64 -> float64 := SFdiv 53 1024.

(** [uint64(f)] truncates toward zero; the conversion is only reached with
    finite, non-negative values below [Hour]. *)
Definition uint64_of_f64 (f : float64) : Z :=
  match f with
  | S754_finite false m e => uint64 (Z.shiftl (Z.pos m) e)
  | _ => 0
  end.

Definition byte (c : ascii) : Z := Z.of_nat (nat_of_ascii c).

Definition isDigit (c : ascii) : bool := (48 <=? byte c) && (byte c <=? 57).

(** [leadingInt] consumes the leading [0-9]* from [s]; [Err] on overflow. *)
Definition errLeadingInt : error := "time: bad [0-9]*".

Fixpoint leadingInt_from (x : Z) (s : string) : result (Z * string) :=
  match s with
  | EmptyString => Ok (x, s)
  | String c rest =>
      if negb (isDigit c) then Ok (x, s)
      else if x >? 2 ^ 63 / 10 then Err errLeadingInt
      else
        let x := uint64 (x * 10 + byte c - 48) in
        if x >? 2 ^ 63 then Err errLeadingInt
        else leadingInt_from x rest
  end.

Definition leadingInt (s : string) : result (Z * string) := leadingInt_from 0 s.

(** [leadingFraction] consumes the leading [0-9]* from [s]; digits after an
    overflow are skipped and neither [x] nor [scale] changes any more. *)
Fixpoint leadingFraction_from (x : Z) (scale : float64) (overflow : bool)
    (s : string) : Z * float64 * string :=
  match s with
  | EmptyString => (x, scale, s)
  | String c rest =>
      if negb (isDigit c) then (x, scale, s)
      else if overflow then leadingFraction_from x scale overflow rest
      else if x >? (2 ^ 63 - 1) / 10 then leadingFraction_from x scale true rest
      else
        let y := uint64 (x * 10 + byte c - 48) in
        if y >? 2 ^ 63 then leadingFraction_from x scale true rest
        else leadingFraction_from y (f64_mul scale (f64_of_uint64 10)) overflow rest
  end.

Definition leadingFraction (s : string) : Z * float64 * string :=
  leadingFraction_from 0 (f64_of_uint64 1) false s.

(** The two spellings of the micro sign, as UTF-8 bytes. *)
Definition micro_sign : string := String "194" (String "181" EmptyString).
Definition greek_mu : string := String "206" (String "188" EmptyString).

Definition unitMap : gmap string Z :=
  list_to_map
    [ ("ns", Nanosecond);
      ("us", Microsecond);
      (micro_sign ++ "s", Microsecond);
      (greek_mu ++ "s", Microsecond);
      ("ms", Millisecond);
      ("s", Second);
      ("m", Minute);
      ("h", Hour) ].

(** [quote] wraps [s] in double quotes, escaping quotes, backslashes and,
    byte by byte, everything outside printable ASCII. *)
Definition dquote : ascii := "034"%char.
Definition backslash : ascii := "092"%char.

Definition lowerhex (n : Z) : ascii :=
  if n <? 10 then ascii_of_nat (Z.to_nat (48 + n))
  else ascii_of_nat (Z.to_nat (97 + (n - 10))).

Fixpoint quote_bytes (s : string) : string :=
  match s with
  | EmptyString => EmptyString
  | String c rest =>
      if (128 <=? byte c) || (byte c <? 32) then
        String backslash (String "x"
          (String (lowerhex (Z.shiftr (byte c) 4))
             (String (lowerhex (Z.land (byte c) 15)) (quote_bytes rest))))
      else if Ascii.eqb c dquote || Ascii.eqb c backslash then
        String backslash (String c (quote_bytes rest))
      else String c (quote_bytes rest)
  end.

Definition quote (s : string) : string :=
  String dquote (quote_bytes s ++ String dquote EmptyString).

Definition errInvalid (orig : string) : error :=
  "time: invalid duration " ++ quote orig.
Definition errMissingUnit (orig : string) : error :=
  "time: missing unit in duration " ++ quote orig.
Definition errUnknownUnit (u orig : string) : error :=
  "time: unknown unit " ++ quote u ++ " in duration " ++ quote orig.

(** The unit is the longest prefix without ['.'] or a digit. *)
Fixpoint unitSpan (s : string) : string * string :=
  match s with
  | EmptyString => (EmptyString, EmptyString)
  | String c rest =>
      if Ascii.eqb c "." || isDigit c then (EmptyString, s)
      else let '(u, r) := unitSpan rest in (String c u, r)
  end.

Definition isEmpty (s : string) : bool :=
  match s with EmptyString => true | _ => false end.

Definition startsNumber (s : string) : bool :=
  match s with
  | String c _ => Ascii.eqb c "." || isDigit c
  | EmptyString => false
  end.

(** The block consuming an optional ['.'] and the digits after it: the
    fraction's digits, its scale, whether a digit was read, and the rest. *)
Definition fraction (s : string) : Z * float64 * bool * string :=
  match s with
  | String c s1 =>
      if Ascii.eqb c "." then
        let pl := String.length s1 in
        let '(f, scale, s2) := leadingFraction s1 in
        (f, scale, negb (pl =? String.length s2)%nat, s2)
      else (0, f64_of_uint64 1, false, s)
  | EmptyString => (0, f64_of_uint64 1, false, s)
  end.

(** The loop [for s != ""]: [d] is the sum so far.  [None] only when [fuel]
    runs out, which [length s] passes never do. *)
Fixpoint parseUnits (fuel : nat) (orig s : string) (d : Z) : option (result Z) :=
  if isEmpty s then Some (Ok d)
  else
    match fuel with
    | O => None
    | S fuel =>
        if negb (startsNumber s) then Some (Err (errInvalid orig))
        else
          let pl := String.length s in
          match leadingInt s with
          | Err _ => Some (Err (errInvalid orig))
          | Ok (v, s) =>
              let pre := negb (pl =? String.length s)%nat in
              let '(f, scale, post, s) := fraction s in
              if negb pre && negb post then Some (Err (errInvalid orig))
              else
                let '(u, s) := unitSpan s in
                if isEmpty u then Some (Err (errMissingUnit orig))
                else
                  match unitMap !! u with
                  | None => Some (Err (errUnknownUnit u orig))
                  | Some unit =>
                      if v >? 2 ^ 63 / unit then Some (Err (errInvalid orig))
                      else
                        let v := uint64 (v * unit) in
                        let v :=
                          if f >? 0 then
                            uint64 (v + uint64_of_f64
                                      (f64_mul (f64_of_uint64 f)
                                         (f64_div (f64_of_uint64 unit) scale)))
                          else v in
                        if (f >? 0) && (v >? 2 ^ 63) then Some (Err (errInvalid orig))
                        else
                          let d := uint64 (d + v) in
                          if d >? 2 ^ 63 then Some (Err (errInvalid orig))
                          else parseUnits fuel orig s d
                  end
          end
    end.

Definition stripSign (s : string) : bool * string :=
  match s with
  | String c rest =>
      if Ascii.eqb c "-" || Ascii.eqb c "+" then (Ascii.eqb c "-", rest)
      else (false, s)
  | EmptyString => (false, s)
  end.

Definition ParseDuration_fuel (fuel : nat) (s : string) : option (result Duration) :=
  let orig := s in
  let '(neg, s) := stripSign s in
  if String.eqb s "0" then Some (Ok 0)
  else if isEmpty s then Some (Err (errInvalid orig))
  else
    match parseUnits fuel orig s 0 with
    | None => None
    | Some (Err e) => Some (Err e)
    | Some (Ok d) =>
        if neg then Some (Ok (int64 (- int64 d)))
        else if d >? 2 ^ 63 - 1 then Some (Err (errInvalid orig))
        else Some (Ok (int64 d))
    end.

(** Every pass of the loop consumes at least one byte, so [length s] passes
    are enough ([ParseDuration_fuel_enough] below): the last branch is never
    taken. *)
Definition ParseDuration (s : string) : result Duration :=
  match ParseDuration_fuel (String.length s) s with
  | Some r => r
  | None => Err (errInvalid s)
  end.

End time.

(** ** The Terraform plugin framework (external), as far as the provider uses it *)

(** [types.String] and [types.Bool]: a value is null, unknown or known. *)
Module types.

Inductive value (A : Type) : Type :=
| Null
| Unknown
| Known (a : A).
Arguments Null {A}.
Arguments Unknown {A}.
Arguments Known {A} a.

Definition String := value string.
Definition Bool := value bool.

Definition IsNull {A} (v : value A) : bool :=
  match v with Null => true | _ => false end.
Definition IsUnknown {A} (v : value A) : bool :=
  match v with Unknown => true | _ => false end.

Definition StringValue (s : string) : String := Known s.

(** A null or unknown string reads as [""]. *)
Definition ValueString (v : String) : string :=
  match v with Known s => s | _ => "" end.

(** [nil] for null; an unknown bool reads as a pointer to [false]. *)
Definition ValueBoolPointer (v : Bool) : option bool :=
  match v with Null => None | Unknown => Some false | Known b => Some b end.

#[global] Instance value_eq_dec {A} `{EqDecision A} : EqDecision (value A).
Proof. solve_decision. Defined.

End types.

(** [diag.Diagnostics]: an ordered collection without duplicates. *)
Module diag.

Inductive Severity := SeverityError | SeverityWarning.

Record Diagnostic := NewDiagnostic {
  severity : Severity;
  Summary : string;
  Detail : string
}.

#[global] Instance Severity_eq_dec : EqDecision Severity.
Proof. solve_decision. Defined.
#[global] Instance Diagnostic_eq_dec : EqDecision Diagnostic.
Proof. solve_decision. Defined.

Definition Diagnostics := list Diagnostic.

Definition NewErrorDiagnostic (summary detail : string) : Diagnostic :=
  NewDiagnostic SeverityError summary detail.

Definition Contains (diags : Diagnostics) (d : Diagnostic) : bool :=
  bool_decide (d ∈ diags).

(** [Append] skips the diagnostics the collection already holds. *)
Fixpoint Append (diags : Diagnostics) (new : list Diagnostic) : Diagnostics :=
  match new with
  | [] => diags
  | d :: rest =>
      if Contains diags d then Append diags rest
      else Append (diags ++ [d])%list rest
  end.

Definition AddError (diags : Diagnostics) (summary detail : string) : Diagnostics :=
  Append diags [NewErrorDiagnostic summary detail].

Definition isError (d : Diagnostic) : bool :=
  match severity d with SeverityError => true | SeverityWarning => false end.

Definition HasError (diags : Diagnostics) : bool := existsb isError diags.

End diag.

(** [tftypes]: the raw object behind a configuration, a plan or a state is
    null, or holds a value per attribute name. *)
Module tftypes.

Inductive AttrType := StringType | BoolType.

Inductive AttrValue :=
| StringVal (v : types.String)
| BoolVal (v : types.Bool).

#[global] Instance AttrType_eq_dec : EqDecision AttrType.
Proof. solve_decision. Defined.
#[global] Instance AttrValue_eq_dec : EqDecision AttrValue.
Proof. solve_decision. Defined.

Definition typeOf (v : AttrValue) : AttrType :=
  match v with StringVal _ => StringType | BoolVal _ => BoolType end.

Definition nullOf (t : AttrType) : AttrValue :=
  match t with StringType => StringVal types.Null | BoolType => BoolVal types.Null end.

Definition Raw := option (gmap string AttrValue).

Definition RawIsNull (r : Raw) : bool :=
  match r with None => true | Some _ => false end.

End tftypes.

(** The resource schema: attributes and their plan modifiers. *)
Module schema.

Inductive PlanModifier := RequiresReplace | UseStateForUnknown.

#[global] Instance PlanModifier_eq_dec : EqDecision PlanModifier.
Proof. solve_decision. Defined.

Inductive Default := StaticString (s : string).

(** [StringAttribute] and [BoolAttribute] differ in [Type] only. *)
Record Attribute := {
  Type_ : tftypes.AttrType;
  MarkdownDescription : string;
  Required : bool;
  Optional : bool;
  Computed : bool;
  Sensitive : bool;
  Default_ : option Default;
  PlanModifiers : list PlanModifier
}.

(** [Description] is the schema's own [MarkdownDescription]. *)
Record Schema := {
  Description : string;
  Attributes : gmap string Attribute
}.

(** What one plan modifier sees of its attribute, and what it answers. *)
Record ModifyRequest := {
  StateRawIsNull : bool;
  PlanRawIsNull : bool;
  ConfigValue : tftypes.AttrValue;
  PlanValue : tftypes.AttrValue;
  StateValue : tftypes.AttrValue
}.

Record ModifyResponse := {
  RespPlanValue : tftypes.AttrValue;
  RespRequiresReplace : bool
}.

Definition valueIsUnknown (v : tftypes.AttrValue) : bool :=
  match v with
  | tftypes.StringVal s => types.IsUnknown s
  | tftypes.BoolVal b => types.IsUnknown b
  end.

Definition valueIsNull (v : tftypes.AttrValue) : bool :=
  match v with
  | tftypes.StringVal s => types.IsNull s
  | tftypes.BoolVal b => types.IsNull b
  end.

(** [RequiresReplace()]: no replacement on creation or destruction, nor when
    the planned value equals the state's.  [UseStateForUnknown()]: an
    unknown planned value is taken from the state, unless the state has no
    value for the attribute (as when there is no state at all) or the
    configuration is unknown. *)
Definition PlanModify (m : PlanModifier) (req : ModifyRequest)
    (resp : ModifyResponse) : ModifyResponse :=
  match m with
  | RequiresReplace =>
      if StateRawIsNull req then resp
      else if PlanRawIsNull req then resp
      else if bool_decide (PlanValue req = StateValue req) then resp
      else {| RespPlanValue := RespPlanValue resp; RespRequiresReplace := true |}
  | UseStateForUnknown =>
      if valueIsNull (StateValue req) then resp
      else if negb (valueIsUnknown (PlanValue req)) then resp
      else if valueIsUnknown (ConfigValue req) then resp
      else {| RespPlanValue := StateValue req;
              RespRequiresReplace := RespRequiresReplace resp |}
  end.

(** The framework runs an attribute's modifiers in order, each seeing the
    planned value the one before it left. *)
Fixpoint runModifiers (ms : list PlanModifier) (req : ModifyRequest)
    (replace : bool) : ModifyResponse :=
  match ms with
  | [] => {| RespPlanValue := PlanValue req; RespRequiresReplace := replace |}
  | m :: rest =>
      let resp := PlanModify m req
                    {| RespPlanValue := PlanValue req; RespRequiresReplace := false |} in
      runModifiers rest
        {| StateRawIsNull := StateRawIsNull req;
           PlanRawIsNull := PlanRawIsNull req;
           ConfigValue := ConfigValue req;
           PlanValue := RespPlanValue resp;
           StateValue := StateValue req |}
        (replace || RespRequiresReplace resp)
  end.

Definition attributeValue (r : tftypes.Raw) (name : string) (a : Attribute) : tftypes.AttrValue :=
  match r with
  | Some m => default (tftypes.nullOf (Type_ a)) (m !! name)
  | None => tftypes.nullOf (Type_ a)
  end.

Definition modifyAttribute (config plan state : tftypes.Raw) (name : string)
    (a : Attribute) : ModifyResponse :=
  runModifiers (PlanModifiers a)
    {| StateRawIsNull := tftypes.RawIsNull state;
       PlanRawIsNull := tftypes.RawIsNull plan;
       ConfigValue := attributeValue config name a;
       PlanValue := attributeValue plan name a;
       StateValue := attributeValue state name a |}
    false.

(** The attributes whose modifiers ask for the resource to be replaced. *)
Definition RequiresReplacePaths (s : Schema) (config plan state : tftypes.Raw) : gset string :=
  dom (filter (fun na => RespRequiresReplace
                           (modifyAttribute config plan state (fst na) (snd na)) = true)
         (Attributes s)).

(** The planned object after the modifiers have run. *)
Definition ModifiedPlan (s : Schema) (config plan state : tftypes.Raw) : tftypes.Raw :=
  match plan with
  | None => None
  | Some _ =>
      Some (map_imap (fun name a =>
              Some (RespPlanValue (modifyAttribute config plan state name a)))
            (Attributes s))
  end.

End schema.

(** [tfsdk.Config], [tfsdk.Plan] and [tfsdk.State]: a raw object and the
    schema it is read and written against. *)
Module tfsdk.

Record Data := {
  Raw : tftypes.Raw;
  Schema : schema.Schema
}.

Definition Config := Data.
Definition Plan := Data.
Definition State := Data.

Definition getString (m : gmap string tftypes.AttrValue) (name : string)
    : option types.String :=
  match m !! name with Some (tftypes.StringVal v) => Some v | _ => None end.

Definition getBool (m : gmap string tftypes.AttrValue) (name : string)
    : option types.Bool :=
  match m !! name with Some (tftypes.BoolVal v) => Some v | _ => None end.

(** What [Get] reports when the object is null, lacks a field of the target
    struct, has one of another type, or has an attribute without a field. *)
Definition conversionError : diag.Diagnostic :=
  diag.NewErrorDiagnostic "Value Conversion Error"
    "An unexpected error was encountered trying to build a value.".

(** An object fits a schema when it has the schema's attributes, each of
    the attribute's type. *)
Definition fits (s : schema.Schema) (obj : gmap string tftypes.AttrValue) : Prop :=
  tftypes.typeOf <$> obj = schema.Type_ <$> schema.Attributes s.

#[global] Instance fits_dec s obj : Decision (fits s obj).
Proof. unfold fits. apply _. Defined.

(** [Set] replaces the whole object, or reports an object the schema does
    not describe. *)
Definition Set_ (d : Data) (obj : gmap string tftypes.AttrValue)
    : diag.Diagnostics * Data :=
  if bool_decide (fits (Schema d) obj)
  then ([], {| Raw := Some obj; Schema := Schema d |})
  else ([conversionError], d).

(** What [SetAttribute] reports for a path the schema does not have (the
    detail abridged). *)
Definition writeError (name : string) : diag.Diagnostic :=
  diag.NewErrorDiagnostic "State Write Error"
    ("An unexpected error was encountered trying to retrieve type information at a given path. Error: AttributeName("
     ++ time.quote name
     ++ ") still remains in the path: could not find attribute or block "
     ++ time.quote name ++ " in schema").

(** [SetAttribute] writes one root attribute; on a null object the other
    attributes become null. *)
Definition SetAttribute (d : Data) (attrPath : list string) (val : tftypes.AttrValue)
    : diag.Diagnostics * Data :=
  match attrPath with
  | [name] =>
      match schema.Attributes (Schema d) !! name with
      | None => ([writeError name], d)
      | Some a =>
          if bool_decide (tftypes.typeOf val = schema.Type_ a) then
            let base :=
              match Raw d with
              | Some m => m
              | None => (fun a => tftypes.nullOf (schema.Type_ a)) <$> schema.Attributes (Schema d)
              end in
            ([], {| Raw := Some (<[name := val]> base); Schema := Schema d |})
          else ([conversionError], d)
      end
  | _ => ([conversionError], d)
  end.

End tfsdk.

(** ** The LiveKit [auth] package (external): the token-issuing handle *)
Module auth.

(** Of [VideoGrant] and [ClaimGrants], the fields the provider sets; the
    others keep their zero values. *)
Record VideoGrant := {
  RoomJoin : bool;
  Room : string;
  CanPublish : option bool;
  CanSubscribe : option bool;
  CanPublishData : option bool
}.

Record ClaimGrants := {
  Identity : string;
  Video : option VideoGrant
}.

Record AccessToken := {
  apiKey : string;
  secret : string;
  grant : ClaimGrants;
  validFor : time.Duration
}.

Definition NewAccessToken (key secret : string) : AccessToken :=
  {| apiKey := key; secret := secret;
     grant := {| Identity := ""; Video := None |};
     validFor := 0 |}.

(** The setters write into the handle and return it. *)
Definition AddGrant (t : AccessToken) (g : VideoGrant) : AccessToken :=
  {| apiKey := apiKey t; secret := secret t;
     grant := {| Identity := Identity (grant t); Video := Some g |};
     validFor := validFor t |}.

Definition SetIdentity (t : AccessToken) (ident : string) : AccessToken :=
  {| apiKey := apiKey t; secret := secret t;
     grant := {| Identity := ident; Video := Video (grant t) |};
     validFor := validFor t |}.

Definition SetValidFor (t : AccessToken) (d : time.Duration) : AccessToken :=
  {| apiKey := apiKey t; secret := secret t; grant := grant t; validFor := d |}.

End auth.

(** [os.Getenv]: the value of the variable, [""] when it is not set. *)
Module os.

Definition Environ := gmap string string.

Definition Getenv (env : Environ) (key : string) : string :=
  default "" (env !! key).

End os.

(** Requests and responses of the [resource] package. *)
Module resource.

Record MetadataRequest := { ProviderTypeName : string }.
Record MetadataResponse := { TypeName : string }.

(** [req.ProviderData] is an [any]. *)
Inductive ProviderData :=
| nil
| AccessTokenPtr (t : auth.AccessToken)
| otherData (typeName : string).

Record ConfigureRequest := { ConfigureProviderData : ProviderData }.
Record ConfigureResponse := { ConfigureDiagnostics : diag.Diagnostics }.

Record CreateRequest := { CreatePlan : tfsdk.Plan }.
Record ReadRequest := { ReadState : tfsdk.State }.
Record UpdateRequest := { UpdatePlan : tfsdk.Plan; UpdateState : tfsdk.State }.
Record DeleteRequest := { DeleteState : tfsdk.State }.
Record ImportStateRequest := { ID : string }.

(** The Create, Read, Update, Delete and ImportState responses. *)
Record Response := {
  State : tfsdk.State;
  Diagnostics : diag.Diagnostics
}.

Definition appendDiagnostics (resp : Response) (ds : list diag.Diagnostic) : Response :=
  {| State := State resp; Diagnostics := diag.Append (Diagnostics resp) ds |}.

Definition addError (resp : Response) (summary detail : string) : Response :=
  {| State := State resp; Diagnostics := diag.AddError (Diagnostics resp) summary detail |}.

Definition passthroughMissingPath : diag.Diagnostic :=
  diag.NewErrorDiagnostic "Resource Import Passthrough Missing Attribute Path"
    "This is always an error in the provider. Please report the following to the provider developer: Resource ImportState method call to ImportStatePassthroughID path must be set to a valid attribute path that can accept a string value.".

Definition ImportStatePassthroughID (attrPath : list string)
    (req : ImportStateRequest) (resp : Response) : Response :=
  let resp :=
    if bool_decide (attrPath = []) then appendDiagnostics resp [passthroughMissingPath]
    else resp in
  let '(diags, st) :=
    tfsdk.SetAttribute (State resp) attrPath (tftypes.StringVal (types.StringValue (ID req))) in
  {| State := st; Diagnostics := diag.Append (Diagnostics resp) diags |}.

(** A call returns, or the plugin process panics. *)
Inductive outcome (A : Type) : Type :=
| Returned (a : A)
| Panicked.
Arguments Returned {A} a.
Arguments Panicked {A}.

End resource.

(** ** [access_token_resource.go] *)
Module AccessTokenResource.

(** [r.apiKeys] is the handle the provider built, [None] while it is nil. *)
Record AccessTokenResource := {
  apiKeys : option auth.AccessToken
}.

Record AccessTokenResourceModel := {
  Room : types.String;
  Identity : types.String;
  CanPublish : types.Bool;
  CanPublishData : types.Bool;
  CanSubscribe : types.Bool;
  ValidFor : types.String;
  Token : types.String
}.

Definition NewAccessTokenResource : AccessTokenResource := {| apiKeys := None |}.

Definition Metadata (r : AccessTokenResource) (req : resource.MetadataRequest)
    (resp : resource.MetadataResponse) : resource.MetadataResponse :=
  {| resource.TypeName := resource.ProviderTypeName req ++ "_access_token" |}.

Definition requiredAttribute (t : tftypes.AttrType) (description : string) : schema.Attribute :=
  {| schema.Type_ := t;
     schema.MarkdownDescription := description;
     schema.Required := true;
     schema.Optional := false;
     schema.Computed := false;
     schema.Sensitive := false;
     schema.Default_ := None;
     schema.PlanModifiers := [schema.RequiresReplace] |}.

Definition Schema (r : AccessTokenResource) : schema.Schema :=
  {| schema.Description := "Access Token";
     schema.Attributes :=
       list_to_map
         [ ("room", requiredAttribute tftypes.StringType "Room name");
           ("identity",
             requiredAttribute tftypes.StringType "Token identity to connect into the room");
           ("can_publish", requiredAttribute tftypes.BoolType "Can Publish");
           ("can_publish_data", requiredAttribute tftypes.BoolType "Can publish data");
           ("can_subscribe", requiredAttribute tftypes.BoolType "Can subscribe");
           ("valid_for",
             {| schema.Type_ := tftypes.StringType;
                schema.MarkdownDescription :=
                  "Validity duration of the token, e.g. 1h, 1d, 1w, etc.";
                schema.Required := false;
                schema.Optional := true;
                schema.Computed := true;
                schema.Sensitive := false;
                schema.Default_ := Some (schema.StaticString "1h");
                schema.PlanModifiers := [schema.RequiresReplace] |});
           ("token",
             {| schema.Type_ := tftypes.StringType;
                schema.MarkdownDescription := "The generated JWT token";
                schema.Required := false;
                schema.Optional := false;
                schema.Computed := true;
                schema.Sensitive := true;
                schema.Default_ := None;
                schema.PlanModifiers := [schema.UseStateForUnknown] |}) ] |}.

Definition Configure (r : AccessTokenResource) (req : resource.ConfigureRequest)
    (resp : resource.ConfigureResponse)
    : AccessTokenResource * resource.ConfigureResponse :=
  match resource.ConfigureProviderData req with
  | resource.nil => (r, resp)
  | resource.AccessTokenPtr apiKeys => ({| apiKeys := Some apiKeys |}, resp)
  | resource.otherData typeName =>
      (r, {| resource.ConfigureDiagnostics :=
               diag.AddError (resource.ConfigureDiagnostics resp)
                 "Unexpected Resource Configure Type"
                 ("Expected *auth.AccessToken, got: " ++ typeName
                  ++ ". Please report this issue to the provider developers.") |})
  end.

(** The struct's [tfsdk] tags. *)
Definition fieldNames : gset string :=
  {[ "room"; "identity"; "can_publish"; "can_publish_data"; "can_subscribe";
     "valid_for"; "token" ]}.

Definition zeroModel : AccessTokenResourceModel :=
  {| Room := types.Null; Identity := types.Null; CanPublish := types.Null;
     CanPublishData := types.Null; CanSubscribe := types.Null;
     ValidFor := types.Null; Token := types.Null |}.

(** [Get(ctx, &data)] on a plan or a state: every field is read from the
    attribute its tag names. *)
Definition Get (d : tfsdk.Data) : diag.Diagnostics * AccessTokenResourceModel :=
  match tfsdk.Raw d with
  | None => ([tfsdk.conversionError], zeroModel)
  | Some m =>
      match tfsdk.getString m "room", tfsdk.getString m "identity",
            tfsdk.getBool m "can_publish", tfsdk.getBool m "can_publish_data",
            tfsdk.getBool m "can_subscribe", tfsdk.getString m "valid_for",
            tfsdk.getString m "token" with
      | Some room, Some ident, Some canPublish, Some canPublishData,
        Some canSubscribe, Some validFor, Some token =>
          if bool_decide (dom m ⊆ fieldNames) then
            ([], {| Room := room; Identity := ident; CanPublish := canPublish;
                    CanPublishData := canPublishData; CanSubscribe := canSubscribe;
                    ValidFor := validFor; Token := token |})
          else ([tfsdk.conversionError], zeroModel)
      | _, _, _, _, _, _, _ => ([tfsdk.conversionError], zeroModel)
      end
  end.

(** The object [Set(ctx, &data)] writes. *)
Definition toObject (data : AccessTokenResourceModel) : gmap string tftypes.AttrValue :=
  list_to_map
    [ ("room", tftypes.StringVal (Room data));
      ("identity", tftypes.StringVal (Identity data));
      ("can_publish", tftypes.BoolVal (CanPublish data));
      ("can_publish_data", tftypes.BoolVal (CanPublishData data));
      ("can_subscribe", tftypes.BoolVal (CanSubscribe data));
      ("valid_for", tftypes.StringVal (ValidFor data));
      ("token", tftypes.StringVal (Token data)) ].

Definition Set_ (st : tfsdk.State) (data : AccessTokenResourceModel)
    : diag.Diagnostics * tfsdk.State :=
  tfsdk.Set_ st (toObject data).

Definition withToken (data : AccessTokenResourceModel) (token : types.String)
    : AccessTokenResourceModel :=
  {| Room := Room data; Identity := Identity data; CanPublish := CanPublish data;
     CanPublishData := CanPublishData data; CanSubscribe := CanSubscribe data;
     ValidFor := ValidFor data; Token := token |}.

Section Signing.

(** [AccessToken.ToJWT] of the [auth] package, the external signing primitive. *)
Variable ToJWT : auth.AccessToken -> result string.

(** [Create] writes the grant, the identity and the validity into the
    handle [r.apiKeys] points to, so the resource comes back with it; a nil
    handle is dereferenced by [AddGrant].  [tflog.Trace] only logs. *)
Definition Create (r : AccessTokenResource) (req : resource.CreateRequest)
    (resp : resource.Response)
    : resource.outcome (AccessTokenResource * resource.Response) :=
  let '(diags, data) := Get (resource.CreatePlan req) in
  let resp := resource.appendDiagnostics resp diags in
  if diag.HasError (resource.Diagnostics resp) then resource.Returned (r, resp)
  else
    match time.ParseDuration (types.ValueString (ValidFor data)) with
    | Err err => resource.Returned (r, resource.addError resp "Invalid valid_for " err)
    | Ok validFor =>
        let grant :=
          {| auth.Room := types.ValueString (Room data);
             auth.CanPublish := types.ValueBoolPointer (CanPublish data);
             auth.CanPublishData := types.ValueBoolPointer (CanPublishData data);
             auth.CanSubscribe := types.ValueBoolPointer (CanSubscribe data);
             auth.RoomJoin := true |} in
        match apiKeys r with
        | None => resource.Panicked
        | Some handle =>
            let at_ :=
              auth.SetValidFor
                (auth.SetIdentity (auth.AddGrant handle grant)
                   (types.ValueString (Identity data)))
                validFor in
            let r := {| apiKeys := Some at_ |} in
            match ToJWT at_ with
            | Err err =>
                resource.Returned (r, resource.addError resp "Error creating JWT" err)
            | Ok jwt =>
                let data := withToken data (types.StringValue jwt) in
                let '(diags, st) := Set_ (resource.State resp) data in
                resource.Returned
                  (r, {| resource.State := st;
                         resource.Diagnostics :=
                           diag.Append (resource.Diagnostics resp) diags |})
            end
        end
    end.

End Signing.

Definition Read (r : AccessTokenResource) (req : resource.ReadRequest)
    (resp : resource.Response) : resource.Response :=
  let '(diags, data) := Get (resource.ReadState req) in
  let resp := resource.appendDiagnostics resp diags in
  if diag.HasError (resource.Diagnostics resp) then resp
  else
    let '(diags, st) := Set_ (resource.State resp) data in
    {| resource.State := st;
       resource.Diagnostics := diag.Append (resource.Diagnostics resp) diags |}.

Definition Update (r : AccessTokenResource) (req : resource.UpdateRequest)
    (resp : resource.Response) : resource.Response :=
  let '(diags, data) := Get (resource.UpdatePlan req) in
  let resp := resource.appendDiagnostics resp diags in
  if diag.HasError (resource.Diagnostics resp) then resp
  else
    let '(diags, st) := Set_ (resource.State resp) data in
    {| resource.State := st;
       resource.Diagnostics := diag.Append (resource.Diagnostics resp) diags |}.

Definition Delete (r : AccessTokenResource) (req : resource.DeleteRequest)
    (resp : resource.Response) : resource.Response :=
  let '(diags, data) := Get (resource.DeleteState req) in
  resource.appendDiagnostics resp diags.

Definition ImportState (r : AccessTokenResource) (req : resource.ImportStateRequest)
    (resp : resource.Response) : resource.Response :=
  resource.ImportStatePassthroughID ["id"] req resp.

End AccessTokenResource.

(** ** [provider.go] *)
Module LivekitProvider.

Record LivekitProvider := { version : string }.

Record LivekitProviderModel := {
  ApiKey : types.String;
  ApiSecret : types.String
}.

Record MetadataResponse := { TypeName : string; Version : string }.

Definition Metadata (p : LivekitProvider) : MetadataResponse :=
  {| TypeName := "livekit"; Version := version p |}.

Definition optionalString (description : string) : schema.Attribute :=
  {| schema.Type_ := tftypes.StringType;
     schema.MarkdownDescription := description;
     schema.Required := false;
     schema.Optional := true;
     schema.Computed := false;
     schema.Sensitive := false;
     schema.Default_ := None;
     schema.PlanModifiers := [] |}.

Definition Schema (p : LivekitProvider) : schema.Schema :=
  {| schema.Description := "";
     schema.Attributes :=
       list_to_map
         [ ("api_key",
             optionalString
               "Livekit API Key. Can also be set via environment variable LIVEKIT_API_KEY");
           ("api_secret",
             optionalString
               "Livekit API Secret. Can also be set via environment variable LIVEKIT_API_SECRET") ] |}.

Record ConfigureRequest := { Config : tfsdk.Config }.

(** [DataSourceData] and [ResourceData] are [nil] or the handle. *)
Record ConfigureResponse := {
  Diagnostics : diag.Diagnostics;
  DataSourceData : option auth.AccessToken;
  ResourceData : option auth.AccessToken
}.

Definition zeroModel : LivekitProviderModel :=
  {| ApiKey := types.Null; ApiSecret := types.Null |}.

Definition Get (d : tfsdk.Data) : diag.Diagnostics * LivekitProviderModel :=
  match tfsdk.Raw d with
  | None => ([tfsdk.conversionError], zeroModel)
  | Some m =>
      match tfsdk.getString m "api_key", tfsdk.getString m "api_secret" with
      | Some apiKey, Some apiSecret =>
          if bool_decide (dom m ⊆ ({[ "api_key"; "api_secret" ]} : gset string)) then
            ([], {| ApiKey := apiKey; ApiSecret := apiSecret |})
          else ([tfsdk.conversionError], zeroModel)
      | _, _ => ([tfsdk.conversionError], zeroModel)
      end
  end.

Definition keyMissing : diag.Diagnostic :=
  diag.NewErrorDiagnostic "Livekit api key missing"
    ("The provider cannot create the Livekit client as there is a missing or empty value for the Livekit API key. "
     ++ "Set the api_key value in the configuration or use the LIVEKIT_API_KEY environment variable. "
     ++ "If either is already set, ensure the value is not empty.").

Definition secretMissing : diag.Diagnostic :=
  diag.NewErrorDiagnostic "Livekit api secret missing"
    ("The provider cannot create the Livekit client as there is a missing or empty value for the Livekit API secret. "
     ++ "Set the api_secret value in the configuration or use the LIVEKIT_API_SECRET environment variable. "
     ++ "If either is already set, ensure the value is not empty.").

Definition withDiagnostics (resp : ConfigureResponse) (ds : diag.Diagnostics)
    : ConfigureResponse :=
  {| Diagnostics := ds;
     DataSourceData := DataSourceData resp;
     ResourceData := ResourceData resp |}.

Definition Configure (env : os.Environ) (p : LivekitProvider) (req : ConfigureRequest)
    (resp : ConfigureResponse) : ConfigureResponse :=
  let '(diags, data) := Get (Config req) in
  let resp := withDiagnostics resp (diag.Append (Diagnostics resp) diags) in
  if diag.HasError (Diagnostics resp) then resp
  else
    let apiKey := os.Getenv env "LIVEKIT_API_KEY" in
    let apiSecret := os.Getenv env "LIVEKIT_API_SECRET" in
    let apiKey :=
      if negb (types.IsNull (ApiKey data)) then types.ValueString (ApiKey data)
      else apiKey in
    let apiSecret :=
      if negb (types.IsNull (ApiSecret data)) then types.ValueString (ApiSecret data)
      else apiSecret in
    let resp :=
      if String.eqb apiKey ""
      then withDiagnostics resp (diag.Append (Diagnostics resp) [keyMissing])
      else resp in
    let resp :=
      if String.eqb apiSecret ""
      then withDiagnostics resp (diag.Append (Diagnostics resp) [secretMissing])
      else resp in
    if diag.HasError (Diagnostics resp) then resp
    else
      let accessToken := auth.NewAccessToken apiKey apiSecret in
      {| Diagnostics := Diagnostics resp;
         DataSourceData := Some accessToken;
         ResourceData := Some accessToken |}.

(** The functions of the package that [Resources] can list, by name.
    [NewExampleResource] is named in [provider.go]; neither source file
    defines it. *)
Inductive ResourceConstructor :=
| NewExampleResource
| NewAccessTokenResource.

#[global] Instance ResourceConstructor_eq_dec : EqDecision ResourceConstructor.
Proof. solve_decision. Defined.

Definition Resources (p : LivekitProvider) : list ResourceConstructor :=
  [ NewExampleResource ].

(** The type name of the resource a constructor builds, where the sources
    define the constructor. *)
Definition resourceTypeName (c : ResourceConstructor) (providerTypeName : string)
    : option string :=
  match c with
  | NewAccessTokenResource =>
      Some (resource.TypeName
              (AccessTokenResource.Metadata AccessTokenResource.NewAccessTokenResource
                 {| resource.ProviderTypeName := providerTypeName |}
                 {| resource.TypeName := "" |}))
  | NewExampleResource => None
  end.

End LivekitProvider.

(** ** The specification's wording, for comparison with the code *)
Module Spec.

(** Credential resolution: the configured attribute when it is set
    (non-null), the environment variable's value otherwise. *)
Definition resolve (attr : types.String) (envValue : string) : string :=
  if types.IsNull attr then envValue else types.ValueString attr.

(** The six configurable attributes of the access-token resource. *)
Definition configurable : list string :=
  [ "room"; "identity"; "can_publish"; "can_publish_data"; "can_subscribe";
    "valid_for" ].

End Spec.

(** ** Sample inputs *)
Module Sample.

Definition resource_ : AccessTokenResource.AccessTokenResource :=
  {| AccessTokenResource.apiKeys := Some (auth.NewAccessToken "APIkey" "secret") |}.

Definition model (validFor : string) : AccessTokenResource.AccessTokenResourceModel :=
  {| AccessTokenResource.Room := types.Known "lobby";
     AccessTokenResource.Identity := types.Known "alice";
     AccessTokenResource.CanPublish := types.Known true;
     AccessTokenResource.CanPublishData := types.Known false;
     AccessTokenResource.CanSubscribe := types.Known true;
     AccessTokenResource.ValidFor := types.Known validFor;
     AccessTokenResource.Token := types.Unknown |}.

Definition data (raw : tftypes.Raw) : tfsdk.Data :=
  {| tfsdk.Raw := raw; tfsdk.Schema := AccessTokenResource.Schema resource_ |}.

Definition create (validFor : string) : resource.CreateRequest :=
  {| resource.CreatePlan := data (Some (AccessTokenResource.toObject (model validFor))) |}.

(** The response as the framework hands it to [Create]: no state yet. *)
Definition response : resource.Response :=
  {| resource.State := data None; resource.Diagnostics := [] |}.

(** A signer that refuses empty keys, and one that always fails. *)
Definition ToJWT (t : auth.AccessToken) : result string :=
  if String.eqb (auth.apiKey t) "" || String.eqb (auth.secret t) ""
  then Err "keys missing"
  else Ok ("jwt." ++ auth.Identity (auth.grant t)).

Definition failingToJWT (t : auth.AccessToken) : result string :=
  Err "signing failed".

(** The handle [Create] is expected to leave for [model "1h"]. *)
Definition issued : auth.AccessToken :=
  {| auth.apiKey := "APIkey";
     auth.secret := "secret";
     auth.grant :=
       {| auth.Identity := "alice";
          auth.Video :=
            Some {| auth.RoomJoin := true; auth.Room := "lobby";
                    auth.CanPublish := Some true; auth.CanSubscribe := Some true;
                    auth.CanPublishData := Some false |} |};
     auth.validFor := 3600000000000 |}.

(** The same model in another room. *)
Definition moved : AccessTokenResource.AccessTokenResourceModel :=
  {| AccessTokenResource.Room := types.Known "hall";
     AccessTokenResource.Identity := types.Known "alice";
     AccessTokenResource.CanPublish := types.Known true;
     AccessTokenResource.CanPublishData := types.Known false;
     AccessTokenResource.CanSubscribe := types.Known true;
     AccessTokenResource.ValidFor := types.Known "1h";
     AccessTokenResource.Token := types.Unknown |}.

Definition stored : gmap string tftypes.AttrValue :=
  AccessTokenResource.toObject
    (AccessTokenResource.withToken (model "1h") (types.StringValue "jwt.alice")).

Definition provider : LivekitProvider.LivekitProvider :=
  {| LivekitProvider.version := "test" |}.

Definition configure (key secret : types.String) : LivekitProvider.ConfigureRequest :=
  {| LivekitProvider.Config :=
       {| tfsdk.Raw :=
            Some (list_to_map [ ("api_key", tftypes.StringVal key);
                                ("api_secret", tftypes.StringVal secret) ]);
          tfsdk.Schema := LivekitProvider.Schema provider |} |}.

Definition configureResponse : LivekitProvider.ConfigureResponse :=
  {| LivekitProvider.Diagnostics := [];
     LivekitProvider.DataSourceData := None;
     LivekitProvider.ResourceData := None |}.

Definition secretInEnv : os.Environ := {[ "LIVEKIT_API_SECRET" := "envsecret" ]}.

End Sample.

(** ** Shapes of [valid_for] strings, for the statements about the parser *)
Module Shape.

Fixpoint allBytes (p : ascii -> bool) (s : string) : bool :=
  match s with
  | EmptyString => true
  | String c rest => p c && allBytes p rest
  end.

(** A byte a unit name may hold: anything but ['.'] and the digits. *)
Definition isUnitByte (c : ascii) : bool := negb (Ascii.eqb c "." || time.isDigit c).

(** A non-empty run of decimal digits. *)
Definition digits (s : string) : bool :=
  negb (time.isEmpty s) && allBytes time.isDigit s.

(** A non-empty run of unit bytes. *)
Definition unitName (s : string) : bool :=
  negb (time.isEmpty s) && allBytes isUnitByte s.

(** The string starts with a minus sign; with a minus or a plus sign. *)
Definition negative (s : string) : bool :=
  match s with String c _ => Ascii.eqb c "-" | EmptyString => false end.

Definition signed (s : string) : bool :=
  match s with
  | String c _ => Ascii.eqb c "-" || Ascii.eqb c "+"
  | EmptyString => false
  end.

End Shape.

(** ** How the framework hands the provider's data to a resource *)
Module framework.

(** [resp.ResourceData] of the provider's [Configure] becomes
    [req.ProviderData] of every resource's [Configure]. *)
Definition providerData (d : option auth.AccessToken) : resource.ProviderData :=
  match d with
  | Some t => resource.AccessTokenPtr t
  | None => resource.nil
  end.

End framework.

(** ** The validity the [auth] package gives a token (external) *)
Module signer.



End signer.

(** ** More sample inputs *)
Module Fixture.

Definition bothInEnv : os.Environ :=
  {[ "LIVEKIT_API_KEY" := "envkey"; "LIVEKIT_API_SECRET" := "envsecret" ]}.

End Fixture.

(** * Properties *)

(** ** [time.ParseDuration] returns on every input *)

Lemma leadingInt_from_length s : forall x v rest,
  time.leadingInt_from x s = Ok (v, rest) ->
  (String.length rest <= String.length s)%nat.
Proof.
  induction s as [|c s IH]; intros x v rest H; cbn [time.leadingInt_from] in H.
  - inversion H; subst; cbn; lia.
  - destruct (negb (time.isDigit c)).
    + inversion H; subst; cbn; lia.
    + destruct (x >? 2 ^ 63 / 10); [discriminate|].
      destruct (time.uint64 (x * 10 + time.byte c - 48) >? 2 ^ 63); [discriminate|].
      apply IH in H. cbn [String.length]. lia.
Qed.

Lemma leadingFraction_from_length s : forall x scale o f scale' rest,
  time.leadingFraction_from x scale o s = (f, scale', rest) ->
  (String.length rest <= String.length s)%nat.
Proof.
  induction s as [|c s IH]; intros x scale o f scale' rest H;
    cbn [time.leadingFraction_from] in H.
  - inversion H; subst; cbn; lia.
  - cbn [String.length].
    destruct (negb (time.isDigit c)); [inversion H; subst; cbn; lia|].
    destruct o; [apply IH in H; lia|].
    destruct (x >? (2 ^ 63 - 1) / 10); [apply IH in H; lia|].
    destruct (time.uint64 (x * 10 + time.byte c - 48) >? 2 ^ 63); apply IH in H; lia.
Qed.

Lemma fraction_length s f scale post rest :
  time.fraction s = (f, scale, post, rest) ->
  (String.length rest <= String.length s)%nat.
Proof.
  unfold time.fraction. destruct s as [|c s1]; [intros H; inversion H; subst; lia|].
  destruct (Ascii.eqb c ".").
  - unfold time.leadingFraction.
    destruct (time.leadingFraction_from _ _ _ s1) as [[f' sc'] s2] eqn:E.
    intros H; inversion H; subst. apply leadingFraction_from_length in E.
    cbn [String.length]. lia.
  - intros H; inversion H; subst; lia.
Qed.

Lemma unitSpan_length s : forall u rest,
  time.unitSpan s = (u, rest) ->
  (String.length u + String.length rest = String.length s)%nat.
Proof.
  induction s as [|c s IH]; intros u rest H; cbn [time.unitSpan] in H.
  - inversion H; subst; reflexivity.
  - destruct (Ascii.eqb c "." || time.isDigit c).
    + inversion H; subst; reflexivity.
    + destruct (time.unitSpan s) as [u' r'] eqn:E. inversion H; subst.
      cbn [String.length]. specialize (IH _ _ eq_refl). lia.
Qed.

Lemma parseUnits_returns fuel : forall orig s d,
  (String.length s <= fuel)%nat -> is_Some (time.parseUnits fuel orig s d).
Proof.
  induction fuel as [|fuel IH]; intros orig s d Hlen.
  - destruct s; cbn in *; [eauto | lia].
  - cbn [time.parseUnits].
    destruct (time.isEmpty s); [eauto|].
    destruct (negb (time.startsNumber s)); [eauto|].
    destruct (time.leadingInt s) as [[v s1]|] eqn:Hint; [|eauto].
    destruct (time.fraction s1) as [[[f scale] post] s2] eqn:Hfrac.
    destruct (negb _ && negb post); [eauto|].
    destruct (time.unitSpan s2) as [u s3] eqn:Hunit.
    destruct (time.isEmpty u) eqn:Hu; [eauto|].
    destruct (time.unitMap !! u) as [unit|]; [|eauto].
    destruct (v >? 2 ^ 63 / unit); [eauto|].
    destruct ((f >? 0) && _); [eauto|].
    destruct (_ >? 2 ^ 63); [eauto|].
    apply IH.
    apply leadingInt_from_length in Hint. apply fraction_length in Hfrac.
    apply unitSpan_length in Hunit.
    destruct u; [discriminate|]. cbn [String.length] in Hunit. lia.
Qed.

Lemma ParseDuration_fuel_enough s :
  time.ParseDuration_fuel (String.length s) s = Some (time.ParseDuration s).
Proof.
  unfold time.ParseDuration.
  destruct (time.ParseDuration_fuel (String.length s) s) eqn:E; [reflexivity|].
  exfalso. unfold time.ParseDuration_fuel in E.
  destruct (time.stripSign s) as [neg s'] eqn:Hs.
  assert (String.length s' <= String.length s)%nat as Hlen.
  { unfold time.stripSign in Hs. destruct s as [|c s0]; [inversion Hs; subst; lia|].
    destruct (Ascii.eqb c "-" || Ascii.eqb c "+"); inversion Hs; subst;
      cbn [String.length]; lia. }
  destruct (String.eqb s' "0"); [discriminate|].
  destruct (time.isEmpty s'); [discriminate|].
  destruct (parseUnits_returns (String.length s) s s' 0 Hlen) as [r Hr].
  rewrite Hr in E. destruct r as [d|e]; [|discriminate].
  destruct neg; [discriminate|]. destruct (d >? 2 ^ 63 - 1); discriminate.
Qed.

(** ** Diagnostics *)

Lemma HasError_app (ds1 ds2 : diag.Diagnostics) :
  diag.HasError (ds1 ++ ds2)%list = diag.HasError ds1 || diag.HasError ds2.
Proof. unfold diag.HasError. apply existsb_app. Qed.

Lemma HasError_false_not_elem (ds : diag.Diagnostics) (d : diag.Diagnostic) :
  diag.HasError ds = false -> diag.isError d = true -> d ∉ ds.
Proof.
  intros Hno Herr Hin. apply list_elem_of_In in Hin.
  assert (diag.HasError ds = true) as Hyes
    by (unfold diag.HasError; apply existsb_exists; eauto).
  congruence.
Qed.

Lemma Append_nil (ds : diag.Diagnostics) : diag.Append ds [] = ds.
Proof. reflexivity. Qed.

Lemma Append_fresh (ds : diag.Diagnostics) (d : diag.Diagnostic) :
  d ∉ ds -> diag.Append ds [d] = (ds ++ [d])%list.
Proof.
  intros Hfresh. cbn [diag.Append]. unfold diag.Contains.
  rewrite bool_decide_eq_false_2 by assumption. reflexivity.
Qed.

Lemma AddError_fresh (ds : diag.Diagnostics) (summary detail : string) :
  diag.HasError ds = false ->
  diag.AddError ds summary detail = (ds ++ [diag.NewErrorDiagnostic summary detail])%list.
Proof.
  intros Hno. unfold diag.AddError. apply Append_fresh.
  apply HasError_false_not_elem; [assumption | reflexivity].
Qed.

Lemma HasError_AddError (ds : diag.Diagnostics) (summary detail : string) :
  diag.HasError (diag.AddError ds summary detail) = true.
Proof.
  unfold diag.AddError. cbn [diag.Append]. unfold diag.Contains.
  case_bool_decide as Hin.
  - unfold diag.HasError. apply existsb_exists.
    exists (diag.NewErrorDiagnostic summary detail).
    split; [by apply list_elem_of_In | reflexivity].
  - rewrite HasError_app. cbn. apply orb_true_r.
Qed.

Lemma HasError_Append (ds new : diag.Diagnostics) :
  diag.HasError (diag.Append ds new) = diag.HasError ds || diag.HasError new.
Proof.
  revert ds. induction new as [|d new IH]; intros ds; cbn [diag.Append].
  - cbn. symmetry. apply orb_false_r.
  - unfold diag.Contains. case_bool_decide as Hin.
    + rewrite IH. cbn [diag.HasError existsb].
      destruct (diag.isError d) eqn:Hd; [|reflexivity].
      assert (diag.HasError ds = true) as ->; [|reflexivity].
      unfold diag.HasError. apply existsb_exists. exists d.
      split; [by apply list_elem_of_In | assumption].
    + rewrite IH, HasError_app. cbn [diag.HasError existsb].
      rewrite orb_false_r, orb_assoc. reflexivity.
Qed.

(** ** Reading and writing the resource model *)

Lemma Get_cases (d : tfsdk.Data) :
  (exists data, AccessTokenResource.Get d = ([], data))
  \/ AccessTokenResource.Get d = ([tfsdk.conversionError], AccessTokenResource.zeroModel).
Proof.
  unfold AccessTokenResource.Get.
  repeat match goal with
         | |- context [match ?x with _ => _ end] => destruct x
         end; eauto.
Qed.

Lemma toObject_fits (r : AccessTokenResource.AccessTokenResource)
    (data : AccessTokenResource.AccessTokenResourceModel) :
  tfsdk.fits (AccessTokenResource.Schema r) (AccessTokenResource.toObject data).
Proof. unfold tfsdk.fits. vm_compute. reflexivity. Qed.

Lemma Set_writes (r : AccessTokenResource.AccessTokenResource) (st : tfsdk.State)
    (data : AccessTokenResource.AccessTokenResourceModel) :
  tfsdk.Schema st = AccessTokenResource.Schema r ->
  AccessTokenResource.Set_ st data
  = ([], {| tfsdk.Raw := Some (AccessTokenResource.toObject data);
            tfsdk.Schema := tfsdk.Schema st |}).
Proof.
  intros Hs. unfold AccessTokenResource.Set_, tfsdk.Set_.
  rewrite bool_decide_eq_true_2; [reflexivity|].
  rewrite Hs. apply toObject_fits.
Qed.

Lemma fits_lookup (s : schema.Schema) (m : gmap string tftypes.AttrValue) (name : string) :
  tfsdk.fits s m ->
  tftypes.typeOf <$> (m !! name) = schema.Type_ <$> (schema.Attributes s !! name).
Proof. unfold tfsdk.fits. intros H. rewrite <- !lookup_fmap, H. reflexivity. Qed.

Lemma fits_getString (s : schema.Schema) (m : gmap string tftypes.AttrValue)
    (name : string) (a : schema.Attribute) :
  tfsdk.fits s m ->
  schema.Attributes s !! name = Some a ->
  schema.Type_ a = tftypes.StringType ->
  exists v, m !! name = Some (tftypes.StringVal v) /\ tfsdk.getString m name = Some v.
Proof.
  intros Hfit Ha Hty. pose proof (fits_lookup s m name Hfit) as H.
  rewrite Ha in H. unfold tfsdk.getString.
  destruct (m !! name) as [[v|v]|]; cbn in H; try congruence. eauto.
Qed.

Lemma fits_getBool (s : schema.Schema) (m : gmap string tftypes.AttrValue)
    (name : string) (a : schema.Attribute) :
  tfsdk.fits s m ->
  schema.Attributes s !! name = Some a ->
  schema.Type_ a = tftypes.BoolType ->
  exists v, m !! name = Some (tftypes.BoolVal v) /\ tfsdk.getBool m name = Some v.
Proof.
  intros Hfit Ha Hty. pose proof (fits_lookup s m name Hfit) as H.
  rewrite Ha in H. unfold tfsdk.getBool.
  destruct (m !! name) as [[v|v]|]; cbn in H; try congruence. eauto.
Qed.

Lemma fits_dom (r : AccessTokenResource.AccessTokenResource)
    (m : gmap string tftypes.AttrValue) :
  tfsdk.fits (AccessTokenResource.Schema r) m ->
  dom m = AccessTokenResource.fieldNames.
Proof.
  unfold tfsdk.fits. intros H.
  rewrite <- (dom_fmap_L tftypes.typeOf m), H, dom_fmap_L.
  vm_compute. reflexivity.
Qed.

(** A state that fits the resource schema decodes, and encoding the model
    gives the same object back. *)
Lemma Get_toObject (r : AccessTokenResource.AccessTokenResource) (d : tfsdk.Data)
    (m : gmap string tftypes.AttrValue) :
  tfsdk.Raw d = Some m ->
  tfsdk.fits (AccessTokenResource.Schema r) m ->
  exists data, AccessTokenResource.Get d = ([], data)
               /\ AccessTokenResource.toObject data = m.
Proof.
  intros Hraw Hfit.
  destruct (fits_getString _ m "room" _ Hfit eq_refl eq_refl) as (room & Lroom & Groom).
  destruct (fits_getString _ m "identity" _ Hfit eq_refl eq_refl) as (ident & Lident & Gident).
  destruct (fits_getBool _ m "can_publish" _ Hfit eq_refl eq_refl) as (cp & Lcp & Gcp).
  destruct (fits_getBool _ m "can_publish_data" _ Hfit eq_refl eq_refl) as (cpd & Lcpd & Gcpd).
  destruct (fits_getBool _ m "can_subscribe" _ Hfit eq_refl eq_refl) as (cs & Lcs & Gcs).
  destruct (fits_getString _ m "valid_for" _ Hfit eq_refl eq_refl) as (vf & Lvf & Gvf).
  destruct (fits_getString _ m "token" _ Hfit eq_refl eq_refl) as (tok & Ltok & Gtok).
  pose proof (fits_dom r m Hfit) as Hdom.
  eexists. split.
  - unfold AccessTokenResource.Get. rewrite Hraw, Groom, Gident, Gcp, Gcpd, Gcs, Gvf, Gtok.
    rewrite bool_decide_eq_true_2 by (rewrite Hdom; reflexivity). reflexivity.
  - apply map_eq. intros i. unfold AccessTokenResource.toObject.
    cbn [list_to_map foldr fst snd AccessTokenResource.Room AccessTokenResource.Identity
         AccessTokenResource.CanPublish AccessTokenResource.CanPublishData
         AccessTokenResource.CanSubscribe AccessTokenResource.ValidFor
         AccessTokenResource.Token].
    repeat (rewrite lookup_insert; case_decide; [subst i; congruence|]).
    rewrite lookup_empty. symmetry. apply not_elem_of_dom. rewrite Hdom.
    unfold AccessTokenResource.fieldNames.
    rewrite !elem_of_union, !elem_of_singleton. intuition congruence.
Qed.

Lemma toObject_withToken_configurable
    (data : AccessTokenResource.AccessTokenResourceModel) (token : types.String)
    (name : string) :
  name ∈ Spec.configurable ->
  AccessTokenResource.toObject (AccessTokenResource.withToken data token) !! name
  = AccessTokenResource.toObject data !! name.
Proof.
  unfold Spec.configurable. rewrite !elem_of_cons, elem_of_nil.
  intros [->|[->|[->|[->|[->|[->|[]]]]]]]; vm_compute; reflexivity.
Qed.

Lemma toObject_lookup_token (data : AccessTokenResource.AccessTokenResourceModel) :
  AccessTokenResource.toObject data !! "token"
  = Some (tftypes.StringVal (AccessTokenResource.Token data)).
Proof. vm_compute. reflexivity. Qed.

Lemma toObject_withToken_token
    (data : AccessTokenResource.AccessTokenResourceModel) (token : types.String) :
  tfsdk.getString
    (AccessTokenResource.toObject (AccessTokenResource.withToken data token)) "token"
  = Some token.
Proof. vm_compute. reflexivity. Qed.

(** ** The access-token resource *)

Ltac decoded_plan Hget Hno :=
  unfold AccessTokenResource.Create;
  rewrite Hget; unfold resource.appendDiagnostics; rewrite Append_nil;
  cbn [resource.Diagnostics resource.State]; rewrite Hno.

(** C3.  When the plan decodes, [Create] stops with the error diagnostic
    "Invalid valid_for " (carrying the parser's message), the resource and the
    response's state untouched, if [time.ParseDuration] rejects the
    [valid_for] string; and an error diagnostic with that summary only appears
    when it does.  "1h", "30m" and "1h30m" parse; "tomorrow", the empty string
    and "1x" do not. *)
Theorem create_invalid_valid_for
    (ToJWT : auth.AccessToken -> result string)
    (r : AccessTokenResource.AccessTokenResource)
    (req : resource.CreateRequest) (resp : resource.Response)
    (data : AccessTokenResource.AccessTokenResourceModel) :
  AccessTokenResource.Get (resource.CreatePlan req) = ([], data) ->
  diag.HasError (resource.Diagnostics resp) = false ->
  (forall e,
     time.ParseDuration (types.ValueString (AccessTokenResource.ValidFor data)) = Err e ->
     AccessTokenResource.Create ToJWT r req resp
     = resource.Returned
         (r, {| resource.State := resource.State resp;
                resource.Diagnostics :=
                  (resource.Diagnostics resp
                   ++ [diag.NewErrorDiagnostic "Invalid valid_for " e])%list |}))
  /\ (forall r' resp' x,
        AccessTokenResource.Create ToJWT r req resp = resource.Returned (r', resp') ->
        x ∈ resource.Diagnostics resp' ->
        diag.isError x = true ->
        diag.Summary x = "Invalid valid_for " ->
        is_ok (time.ParseDuration (types.ValueString (AccessTokenResource.ValidFor data)))
        = false)
  /\ time.ParseDuration "1h" = Ok time.Hour
  /\ time.ParseDuration "30m" = Ok (30 * time.Minute)
  /\ time.ParseDuration "1h30m" = Ok (time.Hour + 30 * time.Minute)
  /\ time.ParseDuration "tomorrow" = Err (time.errInvalid "tomorrow")
  /\ time.ParseDuration "" = Err (time.errInvalid "")
  /\ time.ParseDuration "1x" = Err (time.errUnknownUnit "x" "1x").
Proof.
  intros Hget Hno.
  split; [|split; [|repeat split; vm_compute; reflexivity]].
  - intros e He. decoded_plan Hget Hno. rewrite He.
    unfold resource.addError. rewrite AddError_fresh by assumption. reflexivity.
  - intros r' resp' x Hcreate Hin Herr Hsum.
    destruct (time.ParseDuration _) as [d|e] eqn:Hparse; [exfalso|reflexivity].
    revert Hcreate. decoded_plan Hget Hno. rewrite Hparse.
    destruct (AccessTokenResource.apiKeys r) as [handle|]; [|discriminate].
    destruct (ToJWT _) as [jwt|e].
    + destruct (AccessTokenResource.Set_ _ _) as [ds st] eqn:Hset.
      intros [= <- <-]. cbn [resource.Diagnostics] in Hin.
      unfold AccessTokenResource.Set_, tfsdk.Set_ in Hset.
      destruct (bool_decide _); inversion Hset; subst.
      * rewrite Append_nil in Hin.
        eapply HasError_false_not_elem; eauto.
      * rewrite Append_fresh in Hin
          by (apply HasError_false_not_elem; [assumption | reflexivity]).
        apply elem_of_app in Hin as [Hin|Hin].
        -- eapply HasError_false_not_elem; eauto.
        -- apply list_elem_of_singleton in Hin. subst x. discriminate.
    + intros [= <- <-]. unfold resource.addError in Hin. cbn [resource.Diagnostics] in Hin.
      rewrite AddError_fresh in Hin by assumption.
      apply elem_of_app in Hin as [Hin|Hin].
      * eapply HasError_false_not_elem; eauto.
      * apply list_elem_of_singleton in Hin. subst x. discriminate.
Qed.

(** C5.  A [Create] that returns without an error diagnostic has decoded the
    plan, parsed [valid_for], and signed the handle it leaves in the resource:
    that handle's video grant holds the planned room and the three planned
    permissions with [RoomJoin] set, its identity is the planned one, its
    validity the parsed duration, its keys the configured ones; the token the
    signer returned is the one written to the state. *)
Theorem create_signs_planned_grant
    (ToJWT : auth.AccessToken -> result string)
    (r r' : AccessTokenResource.AccessTokenResource)
    (req : resource.CreateRequest) (resp resp' : resource.Response) :
  AccessTokenResource.Create ToJWT r req resp = resource.Returned (r', resp') ->
  diag.HasError (resource.Diagnostics resp') = false ->
  exists data handle validFor at_ jwt,
    AccessTokenResource.Get (resource.CreatePlan req) = ([], data)
    /\ AccessTokenResource.apiKeys r = Some handle
    /\ time.ParseDuration (types.ValueString (AccessTokenResource.ValidFor data))
       = Ok validFor
    /\ AccessTokenResource.apiKeys r' = Some at_
    /\ ToJWT at_ = Ok jwt
    /\ auth.Video (auth.grant at_)
       = Some {| auth.RoomJoin := true;
                 auth.Room := types.ValueString (AccessTokenResource.Room data);
                 auth.CanPublish :=
                   types.ValueBoolPointer (AccessTokenResource.CanPublish data);
                 auth.CanSubscribe :=
                   types.ValueBoolPointer (AccessTokenResource.CanSubscribe data);
                 auth.CanPublishData :=
                   types.ValueBoolPointer (AccessTokenResource.CanPublishData data) |}
    /\ auth.Identity (auth.grant at_)
       = types.ValueString (AccessTokenResource.Identity data)
    /\ auth.validFor at_ = validFor
    /\ auth.apiKey at_ = auth.apiKey handle
    /\ auth.secret at_ = auth.secret handle
    /\ tfsdk.Raw (resource.State resp')
       = Some (AccessTokenResource.toObject
                 (AccessTokenResource.withToken data (types.StringValue jwt))).
Proof.
  unfold AccessTokenResource.Create.
  destruct (AccessTokenResource.Get (resource.CreatePlan req)) as [ds data] eqn:Hget.
  destruct (diag.HasError (resource.Diagnostics (resource.appendDiagnostics resp ds)))
    eqn:Hearly.
  { intros [= <- <-] Hok. congruence. }
  cbn [resource.appendDiagnostics resource.Diagnostics] in Hearly.
  rewrite HasError_Append in Hearly. apply orb_false_iff in Hearly as [Hno Hds].
  destruct (Get_cases (resource.CreatePlan req)) as [[data' Hdec]|Hdec];
    rewrite Hdec in Hget; inversion Hget; subst; [|discriminate].
  destruct (time.ParseDuration _) as [validFor|e] eqn:Hparse.
  2:{ intros [= <- <-] Hok. unfold resource.addError in Hok.
      cbn [resource.Diagnostics] in Hok. rewrite HasError_AddError in Hok. discriminate. }
  destruct (AccessTokenResource.apiKeys r) as [handle|] eqn:Hkeys; [|discriminate].
  destruct (ToJWT _) as [jwt|e] eqn:Hsign.
  2:{ intros [= <- <-] Hok. unfold resource.addError in Hok.
      cbn [resource.Diagnostics] in Hok. rewrite HasError_AddError in Hok. discriminate. }
  unfold AccessTokenResource.Set_, tfsdk.Set_. cbn [resource.State resource.appendDiagnostics].
  destruct (bool_decide _).
  - intros [= <- <-] Hok. do 5 eexists.
    repeat split; try reflexivity; eassumption.
  - intros [= <- <-] Hok. cbn [resource.Diagnostics] in Hok.
    change (diag.HasError
              (diag.Append (resource.Diagnostics resp) [tfsdk.conversionError]) = false)
      in Hok.
    rewrite HasError_Append in Hok. cbn in Hok. rewrite orb_true_r in Hok. discriminate.
Qed.

(** C6.  [Create] writes the state only together with a token.  When the
    plan decodes and [valid_for] does not parse, [Create] returns an error
    diagnostic and the state it was given.  When [valid_for] parses and the
    handle is set, [Create] returns, and if the signer fails on the handle it
    leaves in the resource, the response has an error diagnostic and the state
    it was given.  And whenever [Create] returns, the state is the one it was
    given, or else the planned model completed with the token the signer
    returned, without any error: reading "token" in the written object gives
    that token, and the six configurable attributes are the planned ones.  (A
    [Create] that panics on a nil handle returns no response at all.) *)
Theorem create_writes_state_only_with_token
    (ToJWT : auth.AccessToken -> result string)
    (r : AccessTokenResource.AccessTokenResource)
    (req : resource.CreateRequest) (resp : resource.Response) :
  (forall data,
      AccessTokenResource.Get (resource.CreatePlan req) = ([], data) ->
      is_ok (time.ParseDuration (types.ValueString (AccessTokenResource.ValidFor data)))
      = false ->
      exists resp',
        AccessTokenResource.Create ToJWT r req resp = resource.Returned (r, resp')
        /\ diag.HasError (resource.Diagnostics resp') = true
        /\ resource.State resp' = resource.State resp)
  /\ (forall data validFor handle,
        AccessTokenResource.Get (resource.CreatePlan req) = ([], data) ->
        diag.HasError (resource.Diagnostics resp) = false ->
        time.ParseDuration (types.ValueString (AccessTokenResource.ValidFor data))
        = Ok validFor ->
        AccessTokenResource.apiKeys r = Some handle ->
        exists at_ resp',
          AccessTokenResource.Create ToJWT r req resp
          = resource.Returned ({| AccessTokenResource.apiKeys := Some at_ |}, resp')
          /\ forall e, ToJWT at_ = Err e ->
               diag.HasError (resource.Diagnostics resp') = true
               /\ resource.State resp' = resource.State resp)
  /\ (forall r' resp',
        AccessTokenResource.Create ToJWT r req resp = resource.Returned (r', resp') ->
        resource.State resp' = resource.State resp
        \/ exists data at_ jwt m,
             AccessTokenResource.Get (resource.CreatePlan req) = ([], data)
             /\ AccessTokenResource.apiKeys r' = Some at_
             /\ ToJWT at_ = Ok jwt
             /\ diag.HasError (resource.Diagnostics resp') = false
             /\ resource.State resp'
                = {| tfsdk.Raw :=
                       Some (AccessTokenResource.toObject
                               (AccessTokenResource.withToken data
                                  (types.StringValue jwt)));
                     tfsdk.Schema := tfsdk.Schema (resource.State resp) |}
             /\ tfsdk.Raw (resource.State resp') = Some m
             /\ tfsdk.getString m "token" = Some (types.Known jwt)
             /\ (forall name, name ∈ Spec.configurable ->
                   m !! name = AccessTokenResource.toObject data !! name)).
Proof.
  split; [|split].
  - intros data Hget Hparse. unfold AccessTokenResource.Create. rewrite Hget.
    unfold resource.appendDiagnostics. rewrite Append_nil.
    cbn [resource.Diagnostics resource.State].
    destruct (diag.HasError (resource.Diagnostics resp)) eqn:Hno.
    + eexists. split; [reflexivity|]. split; [assumption | reflexivity].
    + destruct (time.ParseDuration _) as [d|e]; [discriminate|].
      eexists. split; [reflexivity|]. unfold resource.addError.
      cbn [resource.Diagnostics resource.State].
      split; [apply HasError_AddError | reflexivity].
  - intros data validFor handle Hget Hno Hparse Hkeys.
    decoded_plan Hget Hno. rewrite Hparse, Hkeys.
    destruct (ToJWT _) as [jwt|e] eqn:Hsign.
    + destruct (AccessTokenResource.Set_ _ _) as [ds st].
      do 2 eexists. split; [reflexivity|]. intros e He. congruence.
    + do 2 eexists. split; [reflexivity|]. intros e' _.
      unfold resource.addError. cbn [resource.Diagnostics resource.State].
      split; [apply HasError_AddError | reflexivity].
  - intros r' resp'. unfold AccessTokenResource.Create.
    destruct (AccessTokenResource.Get (resource.CreatePlan req)) as [ds data] eqn:Hget.
    destruct (diag.HasError (resource.Diagnostics (resource.appendDiagnostics resp ds)))
      eqn:Hearly; [intros [= <- <-]; left; reflexivity|].
    cbn [resource.appendDiagnostics resource.Diagnostics] in Hearly.
    rewrite HasError_Append in Hearly. apply orb_false_iff in Hearly as [Hno Hds].
    destruct (Get_cases (resource.CreatePlan req)) as [[data' Hdec]|Hdec];
      rewrite Hdec in Hget; inversion Hget; subst; [|discriminate].
    unfold resource.appendDiagnostics. rewrite Append_nil.
    destruct (time.ParseDuration _) as [validFor|e];
      [|intros [= <- <-]; left; reflexivity].
    destruct (AccessTokenResource.apiKeys r) as [handle|]; [|discriminate].
    destruct (ToJWT _) as [jwt|e] eqn:Hsign;
      [|intros [= <- <-]; left; reflexivity].
    unfold AccessTokenResource.Set_, tfsdk.Set_.
    cbn [resource.State resource.Diagnostics].
    destruct (bool_decide _); intros [= <- <-]; [|left; reflexivity].
    right. cbn [resource.State resource.Diagnostics AccessTokenResource.apiKeys].
    rewrite ?Append_nil.
    eexists data, _, jwt,
      (AccessTokenResource.toObject
         (AccessTokenResource.withToken data (types.StringValue jwt))).
    split; [assumption|]. split; [reflexivity|]. split; [exact Hsign|].
    split; [assumption|]. split; [reflexivity|]. split; [reflexivity|].
    split; [apply toObject_withToken_token|].
    intros name Hname. apply toObject_withToken_configurable, Hname.
Qed.


(** C7.  On a prior state that fits the resource schema, [Read] reports
    nothing and writes back exactly the state it was given, the token
    included; it takes no signer and no handle is consulted. *)
Theorem read_returns_prior_state
    (r : AccessTokenResource.AccessTokenResource)
    (req : resource.ReadRequest) (resp : resource.Response)
    (m : gmap string tftypes.AttrValue) :
  tfsdk.Raw (resource.ReadState req) = Some m ->
  tfsdk.fits (AccessTokenResource.Schema r) m ->
  tfsdk.Schema (resource.ReadState req) = AccessTokenResource.Schema r ->
  tfsdk.Schema (resource.State resp) = AccessTokenResource.Schema r ->
  diag.HasError (resource.Diagnostics resp) = false ->
  AccessTokenResource.Read r req resp
  = {| resource.State := resource.ReadState req;
       resource.Diagnostics := resource.Diagnostics resp |}
  /\ tfsdk.getString m "token"
     = Some (AccessTokenResource.Token
               (snd (AccessTokenResource.Get
                       (resource.State (AccessTokenResource.Read r req resp))))).
Proof.
  intros Hraw Hfit Hreq Hresp Hno.
  destruct (Get_toObject r _ m Hraw Hfit) as (data & Hget & Hobj).
  assert (AccessTokenResource.Read r req resp
          = {| resource.State := resource.ReadState req;
               resource.Diagnostics := resource.Diagnostics resp |}) as Hread.
  { unfold AccessTokenResource.Read. rewrite Hget.
    unfold resource.appendDiagnostics. rewrite Append_nil.
    cbn [resource.Diagnostics resource.State]. rewrite Hno.
    rewrite (Set_writes r) by assumption. rewrite Append_nil, Hobj.
    destruct (resource.ReadState req) as [raw sch]. cbn in *. congruence. }
  split; [assumption|].
  rewrite Hread. cbn [resource.State]. rewrite Hget. cbn [snd].
  rewrite <- Hobj. reflexivity.
Qed.

(** ** The resource schema *)

Lemma toObject_lookup_configurable
    (data : AccessTokenResource.AccessTokenResourceModel) (name : string) :
  name ∈ Spec.configurable ->
  exists v, AccessTokenResource.toObject data !! name = Some v.
Proof.
  unfold Spec.configurable. rewrite !elem_of_cons, elem_of_nil.
  intros [->|[->|[->|[->|[->|[->|[]]]]]]]; eexists; vm_compute; reflexivity.
Qed.

(** C2.  Each of room, identity, can_publish, can_publish_data, can_subscribe
    and valid_for is declared with the requires-replace plan modifier, and
    token, a computed attribute, with use-state-for-unknown.  So when a prior
    state and a plan differ in one of the six, that attribute is among those
    that force replacement; and a token unknown in the plan is planned with
    the token the prior state holds. *)
Theorem schema_forces_replacement (r : AccessTokenResource.AccessTokenResource) :
  (forall name, name ∈ Spec.configurable ->
     exists a, schema.Attributes (AccessTokenResource.Schema r) !! name = Some a
               /\ schema.PlanModifiers a = [schema.RequiresReplace])
  /\ (exists a, schema.Attributes (AccessTokenResource.Schema r) !! "token" = Some a
                /\ schema.Computed a = true
                /\ schema.PlanModifiers a = [schema.UseStateForUnknown])
  /\ (forall (config : tftypes.Raw)
        (prior planned : AccessTokenResource.AccessTokenResourceModel) (name : string),
        name ∈ Spec.configurable ->
        AccessTokenResource.toObject prior !! name
        <> AccessTokenResource.toObject planned !! name ->
        name ∈ schema.RequiresReplacePaths (AccessTokenResource.Schema r) config
                 (Some (AccessTokenResource.toObject planned))
                 (Some (AccessTokenResource.toObject prior)))
  /\ (forall (cfg prior planned : AccessTokenResource.AccessTokenResourceModel),
        AccessTokenResource.Token cfg <> types.Unknown ->
        AccessTokenResource.Token prior <> types.Null ->
        AccessTokenResource.Token planned = types.Unknown ->
        exists obj,
          schema.ModifiedPlan (AccessTokenResource.Schema r)
            (Some (AccessTokenResource.toObject cfg))
            (Some (AccessTokenResource.toObject planned))
            (Some (AccessTokenResource.toObject prior)) = Some obj
          /\ obj !! "token" = Some (tftypes.StringVal (AccessTokenResource.Token prior))).
Proof.
  split; [|split; [|split]].
  - intros name. unfold Spec.configurable. rewrite !elem_of_cons, elem_of_nil.
    intros [->|[->|[->|[->|[->|[->|[]]]]]]]; eexists; split; vm_compute; reflexivity.
  - eexists. repeat split; vm_compute; reflexivity.
  - intros config prior planned name Hname Hdiff.
    unfold schema.RequiresReplacePaths. apply elem_of_dom.
    assert (exists a, schema.Attributes (AccessTokenResource.Schema r) !! name = Some a
                      /\ schema.PlanModifiers a = [schema.RequiresReplace]) as (a & Ha & Hmods).
    { revert Hname. unfold Spec.configurable. rewrite !elem_of_cons, elem_of_nil.
      intros [->|[->|[->|[->|[->|[->|[]]]]]]]; eexists; split; vm_compute; reflexivity. }
    exists a. apply map_lookup_filter_Some. split; [assumption|].
    cbn [fst snd]. unfold schema.modifyAttribute. rewrite Hmods.
    cbn [schema.runModifiers schema.PlanModify schema.StateRawIsNull schema.PlanRawIsNull
         schema.PlanValue schema.StateValue tftypes.RawIsNull schema.attributeValue
         schema.RespRequiresReplace orb].
    destruct (toObject_lookup_configurable prior name Hname) as [v1 H1].
    destruct (toObject_lookup_configurable planned name Hname) as [v2 H2].
    rewrite H1, H2 in Hdiff |- *. cbn [default from_option id]. unfold id.
    rewrite bool_decide_eq_false_2 by congruence. reflexivity.
  - intros cfg prior planned Hcfg Hprior Hplanned.
    unfold schema.ModifiedPlan. eexists. split; [reflexivity|].
    rewrite map_lookup_imap.
    replace (schema.Attributes (AccessTokenResource.Schema r) !! "token")
      with (Some {| schema.Type_ := tftypes.StringType;
                    schema.MarkdownDescription := "The generated JWT token";
                    schema.Required := false;
                    schema.Optional := false;
                    schema.Computed := true;
                    schema.Sensitive := true;
                    schema.Default_ := None;
                    schema.PlanModifiers := [schema.UseStateForUnknown] |})
      by (vm_compute; reflexivity).
    cbn [mbind option_bind]. f_equal.
    unfold schema.modifyAttribute.
    cbn [schema.PlanModifiers schema.attributeValue schema.Type_].
    replace (AccessTokenResource.toObject cfg !! "token")
      with (Some (tftypes.StringVal (AccessTokenResource.Token cfg)))
      by (vm_compute; reflexivity).
    replace (AccessTokenResource.toObject planned !! "token")
      with (Some (tftypes.StringVal (AccessTokenResource.Token planned)))
      by (vm_compute; reflexivity).
    replace (AccessTokenResource.toObject prior !! "token")
      with (Some (tftypes.StringVal (AccessTokenResource.Token prior)))
      by (vm_compute; reflexivity).
    rewrite Hplanned. cbn [default from_option id]. unfold id.
    cbn [schema.runModifiers schema.PlanModify schema.StateValue schema.valueIsNull].
    destruct (AccessTokenResource.Token prior); [congruence | |];
      (destruct (AccessTokenResource.Token cfg); [reflexivity | congruence | reflexivity]).
Qed.

(** ** The provider *)

Ltac decoded_config Hget Hno :=
  unfold LivekitProvider.Configure;
  rewrite Hget; unfold LivekitProvider.withDiagnostics; rewrite Append_nil;
  cbn [LivekitProvider.Diagnostics LivekitProvider.DataSourceData
       LivekitProvider.ResourceData];
  rewrite Hno.

Lemma Configure_resolved (attr : types.String) (envValue : string) :
  (if negb (types.IsNull attr) then types.ValueString attr else envValue)
  = Spec.resolve attr envValue.
Proof. unfold Spec.resolve. destruct (types.IsNull attr); reflexivity. Qed.

(** C4.  When the configuration decodes and both the resolved key and the
    resolved secret are empty, [Configure] adds two different error
    diagnostics, the key's then the secret's, and leaves the data handed to
    resources and data sources as it was: no handle is built. *)
Theorem configure_reports_both_missing
    (env : os.Environ) (p : LivekitProvider.LivekitProvider)
    (req : LivekitProvider.ConfigureRequest) (resp : LivekitProvider.ConfigureResponse)
    (data : LivekitProvider.LivekitProviderModel) :
  LivekitProvider.Get (LivekitProvider.Config req) = ([], data) ->
  diag.HasError (LivekitProvider.Diagnostics resp) = false ->
  Spec.resolve (LivekitProvider.ApiKey data) (os.Getenv env "LIVEKIT_API_KEY") = "" ->
  Spec.resolve (LivekitProvider.ApiSecret data) (os.Getenv env "LIVEKIT_API_SECRET") = "" ->
  LivekitProvider.Configure env p req resp
  = {| LivekitProvider.Diagnostics :=
         (LivekitProvider.Diagnostics resp
          ++ [LivekitProvider.keyMissing; LivekitProvider.secretMissing])%list;
       LivekitProvider.DataSourceData := LivekitProvider.DataSourceData resp;
       LivekitProvider.ResourceData := LivekitProvider.ResourceData resp |}
  /\ LivekitProvider.keyMissing <> LivekitProvider.secretMissing
  /\ diag.isError LivekitProvider.keyMissing = true
  /\ diag.isError LivekitProvider.secretMissing = true.
Proof.
  intros Hget Hno Hkey Hsecret.
  split; [|split; [discriminate | split; reflexivity]].
  decoded_config Hget Hno.
  rewrite !Configure_resolved, Hkey, Hsecret.
  cbn [String.eqb LivekitProvider.Diagnostics LivekitProvider.DataSourceData
       LivekitProvider.ResourceData].
  rewrite (Append_fresh (LivekitProvider.Diagnostics resp))
    by (apply HasError_false_not_elem; [assumption | reflexivity]).
  rewrite Append_fresh.
  - rewrite HasError_app. cbn [diag.HasError existsb diag.isError diag.severity
                               LivekitProvider.keyMissing diag.NewErrorDiagnostic].
    rewrite orb_true_r, <- app_assoc. reflexivity.
  - intros Hin. apply elem_of_app in Hin as [Hin|Hin].
    + revert Hin. apply HasError_false_not_elem; [assumption | reflexivity].
    + apply list_elem_of_singleton in Hin. discriminate.
Qed.

(** C8.  When the configuration decodes, [Configure] works with the key and
    the secret resolved as the specification says, each on its own: the key's
    error is reported exactly when the resolved key is empty, the secret's
    exactly when the resolved secret is, and when neither is, the handle is
    built from the two resolved values. *)
Theorem configure_resolves_credentials
    (env : os.Environ) (p : LivekitProvider.LivekitProvider)
    (req : LivekitProvider.ConfigureRequest) (resp : LivekitProvider.ConfigureResponse)
    (data : LivekitProvider.LivekitProviderModel) :
  LivekitProvider.Get (LivekitProvider.Config req) = ([], data) ->
  diag.HasError (LivekitProvider.Diagnostics resp) = false ->
  (LivekitProvider.keyMissing
     ∈ LivekitProvider.Diagnostics (LivekitProvider.Configure env p req resp)
   <-> Spec.resolve (LivekitProvider.ApiKey data) (os.Getenv env "LIVEKIT_API_KEY") = "")
  /\ (LivekitProvider.secretMissing
        ∈ LivekitProvider.Diagnostics (LivekitProvider.Configure env p req resp)
      <-> Spec.resolve (LivekitProvider.ApiSecret data)
            (os.Getenv env "LIVEKIT_API_SECRET") = "")
  /\ (Spec.resolve (LivekitProvider.ApiKey data) (os.Getenv env "LIVEKIT_API_KEY") <> "" ->
      Spec.resolve (LivekitProvider.ApiSecret data) (os.Getenv env "LIVEKIT_API_SECRET")
      <> "" ->
      LivekitProvider.Configure env p req resp
      = {| LivekitProvider.Diagnostics := LivekitProvider.Diagnostics resp;
           LivekitProvider.DataSourceData :=
             Some (auth.NewAccessToken
                     (Spec.resolve (LivekitProvider.ApiKey data)
                        (os.Getenv env "LIVEKIT_API_KEY"))
                     (Spec.resolve (LivekitProvider.ApiSecret data)
                        (os.Getenv env "LIVEKIT_API_SECRET")));
           LivekitProvider.ResourceData :=
             Some (auth.NewAccessToken
                     (Spec.resolve (LivekitProvider.ApiKey data)
                        (os.Getenv env "LIVEKIT_API_KEY"))
                     (Spec.resolve (LivekitProvider.ApiSecret data)
                        (os.Getenv env "LIVEKIT_API_SECRET"))) |}).
Proof.
  intros Hget Hno.
  assert (LivekitProvider.keyMissing ∉ LivekitProvider.Diagnostics resp) as Hk
    by (apply HasError_false_not_elem; [assumption | reflexivity]).
  assert (LivekitProvider.secretMissing ∉ LivekitProvider.Diagnostics resp) as Hs
    by (apply HasError_false_not_elem; [assumption | reflexivity]).
  assert (LivekitProvider.keyMissing <> LivekitProvider.secretMissing) as Hne
    by discriminate.
  decoded_config Hget Hno. rewrite !Configure_resolved.
  set (k := Spec.resolve (LivekitProvider.ApiKey data) _).
  set (s := Spec.resolve (LivekitProvider.ApiSecret data) _).
  destruct (String.eqb k "") eqn:Ek; destruct (String.eqb s "") eqn:Es;
    [ apply String.eqb_eq in Ek | apply String.eqb_eq in Ek
    | apply String.eqb_neq in Ek | apply String.eqb_neq in Ek ];
    [ apply String.eqb_eq in Es | apply String.eqb_neq in Es
    | apply String.eqb_eq in Es | apply String.eqb_neq in Es ];
    cbn [LivekitProvider.Diagnostics LivekitProvider.DataSourceData
         LivekitProvider.ResourceData];
    rewrite ?(Append_fresh _ LivekitProvider.keyMissing) by assumption.
  - rewrite Append_fresh
      by (rewrite elem_of_app, list_elem_of_singleton; intros [?|?];
          [contradiction | congruence]).
    rewrite !HasError_app. cbn [diag.HasError existsb diag.isError diag.severity
      LivekitProvider.keyMissing diag.NewErrorDiagnostic orb].
    rewrite orb_true_r. cbn [LivekitProvider.Diagnostics].
    rewrite !elem_of_app, !list_elem_of_singleton. intuition congruence.
  - rewrite !HasError_app. cbn [diag.HasError existsb diag.isError diag.severity
      LivekitProvider.keyMissing diag.NewErrorDiagnostic orb].
    rewrite orb_true_r. cbn [LivekitProvider.Diagnostics].
    rewrite !elem_of_app, !list_elem_of_singleton. intuition congruence.
  - rewrite Append_fresh by assumption.
    rewrite !HasError_app. cbn [diag.HasError existsb diag.isError diag.severity
      LivekitProvider.secretMissing diag.NewErrorDiagnostic orb].
    rewrite orb_true_r. cbn [LivekitProvider.Diagnostics].
    rewrite !elem_of_app, !list_elem_of_singleton. intuition congruence.
  - rewrite Hno. cbn [LivekitProvider.Diagnostics]. intuition congruence.
Qed.

(** C1 (the code departs from it).  [Resources] lists [NewExampleResource]
    and nothing else: [NewAccessTokenResource], whose resource is named
    "livekit_access_token" under this provider, is not in the list, and no
    listed constructor is known to build a resource of that name. *)
Theorem resources_omit_access_token (p : LivekitProvider.LivekitProvider) :
  LivekitProvider.Resources p = [LivekitProvider.NewExampleResource]
  /\ (LivekitProvider.NewAccessTokenResource ∉ LivekitProvider.Resources p)
  /\ LivekitProvider.resourceTypeName LivekitProvider.NewAccessTokenResource
       (LivekitProvider.TypeName (LivekitProvider.Metadata p))
     = Some "livekit_access_token"
  /\ (forall c, c ∈ LivekitProvider.Resources p ->
        LivekitProvider.resourceTypeName c
          (LivekitProvider.TypeName (LivekitProvider.Metadata p))
        <> Some "livekit_access_token").
Proof.
  split; [reflexivity|]. split; [|split; [reflexivity|]].
  - unfold LivekitProvider.Resources. rewrite list_elem_of_singleton. discriminate.
  - intros c. unfold LivekitProvider.Resources. rewrite list_elem_of_singleton.
    intros ->. discriminate.
Qed.

(** C9 (the code departs from it).  The schema declares no attribute "id",
    so [ImportState], which writes the identifier at that path, never writes
    it: on a state of the resource's schema it leaves the state as it was and
    reports a write error. *)
Theorem import_state_has_no_id_attribute
    (r : AccessTokenResource.AccessTokenResource) (req : resource.ImportStateRequest)
    (raw : tftypes.Raw) (ds : diag.Diagnostics) :
  schema.Attributes (AccessTokenResource.Schema r) !! "id" = None
  /\ AccessTokenResource.ImportState r req
       {| resource.State :=
            {| tfsdk.Raw := raw; tfsdk.Schema := AccessTokenResource.Schema r |};
          resource.Diagnostics := ds |}
     = {| resource.State :=
            {| tfsdk.Raw := raw; tfsdk.Schema := AccessTokenResource.Schema r |};
          resource.Diagnostics := diag.Append ds [tfsdk.writeError "id"] |}
  /\ diag.HasError (diag.Append ds [tfsdk.writeError "id"]) = true.
Proof.
  assert (schema.Attributes (AccessTokenResource.Schema r) !! "id" = None) as Hid
    by (vm_compute; reflexivity).
  split; [assumption|]. split.
  - unfold AccessTokenResource.ImportState, resource.ImportStatePassthroughID.
    rewrite bool_decide_eq_false_2 by discriminate.
    unfold tfsdk.SetAttribute. cbn [resource.State tfsdk.Schema resource.Diagnostics].
    rewrite Hid. reflexivity.
  - rewrite HasError_Append. cbn. apply orb_true_r.
Qed.

(** ** The theorems at sample inputs *)

Lemma create_invalid_valid_for_witness :
  AccessTokenResource.Create Sample.ToJWT Sample.resource_ (Sample.create "tomorrow")
    Sample.response
  = resource.Returned
      (Sample.resource_,
       {| resource.State := Sample.data None;
          resource.Diagnostics :=
            [diag.NewErrorDiagnostic "Invalid valid_for "
               (time.errInvalid "tomorrow")] |}).
Proof.
  assert (AccessTokenResource.Get (resource.CreatePlan (Sample.create "tomorrow"))
          = ([], Sample.model "tomorrow")) as Hget by (vm_compute; reflexivity).
  assert (diag.HasError (resource.Diagnostics Sample.response) = false) as Hno
    by reflexivity.
  apply (proj1 (create_invalid_valid_for Sample.ToJWT Sample.resource_
                  (Sample.create "tomorrow") Sample.response
                  (Sample.model "tomorrow") Hget Hno)).
  vm_compute. reflexivity.
Defined.

Lemma create_signs_planned_grant_witness :
  exists at_,
    auth.Video (auth.grant at_)
    = Some {| auth.RoomJoin := true; auth.Room := "lobby";
              auth.CanPublish := Some true; auth.CanSubscribe := Some true;
              auth.CanPublishData := Some false |}
    /\ auth.Identity (auth.grant at_) = "alice"
    /\ auth.validFor at_ = time.Hour
    /\ Sample.ToJWT at_ = Ok "jwt.alice".
Proof.
  destruct (create_signs_planned_grant Sample.ToJWT Sample.resource_
              {| AccessTokenResource.apiKeys := Some Sample.issued |}
              (Sample.create "1h") Sample.response
              {| resource.State := Sample.data (Some Sample.stored);
                 resource.Diagnostics := [] |})
    as (data & handle & validFor & at_ & jwt & Hget & Hkeys & Hparse & Hat & Hsign
        & Hvideo & Hident & Hvalid & _).
  - vm_compute. reflexivity.
  - reflexivity.
  - exists at_.
    assert (data = Sample.model "1h") as -> by (vm_compute in Hget; vm_compute; congruence).
    assert (validFor = time.Hour) as -> by (vm_compute in Hparse; vm_compute; congruence).
    cbn [AccessTokenResource.apiKeys] in Hat. inversion Hat; subst at_.
    repeat split; vm_compute; reflexivity.
Defined.

Lemma create_writes_state_only_with_token_witness :
  exists at_ resp',
    AccessTokenResource.Create Sample.failingToJWT Sample.resource_ (Sample.create "1h")
      Sample.response
    = resource.Returned ({| AccessTokenResource.apiKeys := Some at_ |}, resp')
    /\ forall e, Sample.failingToJWT at_ = Err e ->
         diag.HasError (resource.Diagnostics resp') = true
         /\ resource.State resp' = resource.State Sample.response.
Proof.
  apply (proj1 (proj2 (create_writes_state_only_with_token Sample.failingToJWT
                         Sample.resource_ (Sample.create "1h") Sample.response))
           (Sample.model "1h") time.Hour (auth.NewAccessToken "APIkey" "secret")).
  - vm_compute. reflexivity.
  - reflexivity.
  - vm_compute. reflexivity.
  - reflexivity.
Defined.



Lemma read_returns_prior_state_witness :
  AccessTokenResource.Read Sample.resource_
    {| resource.ReadState := Sample.data (Some Sample.stored) |}
    {| resource.State := Sample.data (Some Sample.stored); resource.Diagnostics := [] |}
  = {| resource.State := Sample.data (Some Sample.stored); resource.Diagnostics := [] |}.
Proof.
  apply (read_returns_prior_state Sample.resource_
           {| resource.ReadState := Sample.data (Some Sample.stored) |}
           {| resource.State := Sample.data (Some Sample.stored);
              resource.Diagnostics := [] |}
           Sample.stored).
  - reflexivity.
  - apply toObject_fits.
  - reflexivity.
  - reflexivity.
  - reflexivity.
Defined.

Lemma schema_forces_replacement_witness :
  "room" ∈ schema.RequiresReplacePaths (AccessTokenResource.Schema Sample.resource_) None
             (Some (AccessTokenResource.toObject Sample.moved))
             (Some (AccessTokenResource.toObject (Sample.model "1h"))).
Proof.
  apply (proj1 (proj2 (proj2 (schema_forces_replacement Sample.resource_)))).
  - apply list_elem_of_here.
  - intros H. vm_compute in H. discriminate.
Defined.

Lemma configure_reports_both_missing_witness :
  LivekitProvider.Configure ∅ Sample.provider (Sample.configure types.Null types.Null)
    Sample.configureResponse
  = {| LivekitProvider.Diagnostics :=
         [LivekitProvider.keyMissing; LivekitProvider.secretMissing];
       LivekitProvider.DataSourceData := None;
       LivekitProvider.ResourceData := None |}.
Proof.
  apply (configure_reports_both_missing ∅ Sample.provider
           (Sample.configure types.Null types.Null) Sample.configureResponse
           {| LivekitProvider.ApiKey := types.Null; LivekitProvider.ApiSecret := types.Null |}).
  - vm_compute. reflexivity.
  - reflexivity.
  - reflexivity.
  - reflexivity.
Defined.

Lemma configure_resolves_credentials_witness :
  LivekitProvider.Configure Sample.secretInEnv Sample.provider
    (Sample.configure (types.Known "cfgkey") types.Null) Sample.configureResponse
  = {| LivekitProvider.Diagnostics := [];
       LivekitProvider.DataSourceData :=
         Some (auth.NewAccessToken "cfgkey" "envsecret");
       LivekitProvider.ResourceData :=
         Some (auth.NewAccessToken "cfgkey" "envsecret") |}.
Proof.
  assert (LivekitProvider.Get
            (LivekitProvider.Config (Sample.configure (types.Known "cfgkey") types.Null))
          = ([], {| LivekitProvider.ApiKey := types.Known "cfgkey";
                    LivekitProvider.ApiSecret := types.Null |})) as Hget
    by (vm_compute; reflexivity).
  assert (diag.HasError (LivekitProvider.Diagnostics Sample.configureResponse) = false)
    as Hno by reflexivity.
  apply (proj2 (proj2 (configure_resolves_credentials Sample.secretInEnv Sample.provider
                         _ _ _ Hget Hno))).
  - vm_compute. discriminate.
  - vm_compute. discriminate.
Defined.

(** * Further properties *)

(** ** The parser on numbers without a unit and on unknown units *)

Lemma append_String (c : ascii) (s1 s2 : string) :
  String c s1 ++ s2 = String c (s1 ++ s2).
Proof. reflexivity. Qed.

Lemma length_append (s1 s2 : string) :
  String.length (s1 ++ s2) = (String.length s1 + String.length s2)%nat.
Proof.
  induction s1 as [|c s1 IH]; [reflexivity|].
  rewrite append_String. cbn [String.length Nat.add]. f_equal. exact IH.
Qed.

Lemma isDigit_not_sign (c : ascii) :
  time.isDigit c = true -> Ascii.eqb c "-" || Ascii.eqb c "+" = false.
Proof.
  intros H. destruct (Ascii.eqb c "-") eqn:Em.
  - apply Ascii.eqb_eq in Em. subst c. discriminate.
  - destruct (Ascii.eqb c "+") eqn:Ep; [|reflexivity].
    apply Ascii.eqb_eq in Ep. subst c. discriminate.
Qed.

Lemma isDigit_not_dot (c : ascii) : time.isDigit c = true -> Ascii.eqb c "." = false.
Proof.
  intros H. destruct (Ascii.eqb c ".") eqn:E; [|reflexivity].
  apply Ascii.eqb_eq in E. subst c. discriminate.
Qed.

(** After a run of digits, [leadingInt] stops where the digits stop, unless
    it overflows. *)
Lemma leadingInt_from_digits (ds : string) : forall (x : Z) (u : string),
  Shape.allBytes time.isDigit ds = true ->
  time.startsNumber u = false ->
  time.leadingInt_from x (ds ++ u) = Err time.errLeadingInt
  \/ exists v, time.leadingInt_from x (ds ++ u) = Ok (v, u).
Proof.
  induction ds as [|c ds IH]; intros x u Hds Hu.
  - right. exists x. change (EmptyString ++ u) with u.
    destruct u as [|c r]; [reflexivity|].
    cbn [time.leadingInt_from]. cbn [time.startsNumber] in Hu.
    apply orb_false_iff in Hu as [_ Hc]. rewrite Hc. reflexivity.
  - cbn [Shape.allBytes] in Hds. apply andb_true_iff in Hds as [Hc Hds].
    rewrite append_String. cbn [time.leadingInt_from]. rewrite Hc. cbn [negb].
    destruct (x >? 2 ^ 63 / 10); [left; reflexivity|].
    destruct (_ >? 2 ^ 63); [left; reflexivity|].
    apply IH; assumption.
Qed.

Lemma unitSpan_unitName (u : string) :
  Shape.allBytes Shape.isUnitByte u = true -> time.unitSpan u = (u, EmptyString).
Proof.
  induction u as [|c u IH]; intros H; [reflexivity|].
  cbn [Shape.allBytes] in H. apply andb_true_iff in H as [Hc Hu].
  cbn [time.unitSpan]. unfold Shape.isUnitByte in Hc.
  apply negb_true_iff in Hc. rewrite Hc, (IH Hu). reflexivity.
Qed.

Lemma unitName_startsNumber (u : string) :
  Shape.allBytes Shape.isUnitByte u = true -> time.startsNumber u = false.
Proof.
  destruct u as [|c u]; [reflexivity|]. cbn [Shape.allBytes time.startsNumber].
  intros H. apply andb_true_iff in H as [Hc _]. unfold Shape.isUnitByte in Hc.
  apply negb_true_iff in Hc. exact Hc.
Qed.

Lemma fraction_unitName (u : string) :
  Shape.allBytes Shape.isUnitByte u = true ->
  time.fraction u = (0, time.f64_of_uint64 1, false, u).
Proof.
  destruct u as [|c u]; [reflexivity|]. cbn [Shape.allBytes]. intros H.
  apply andb_true_iff in H as [Hc _]. unfold Shape.isUnitByte in Hc.
  apply negb_true_iff, orb_false_iff in Hc as [Hdot _].
  unfold time.fraction. rewrite Hdot. reflexivity.
Qed.

(** One pass of the loop over digits followed by a unit name, or by nothing. *)
Lemma parseUnits_digits_unit (fuel : nat) (orig ds u : string) (d : Z) :
  Shape.digits ds = true ->
  Shape.allBytes Shape.isUnitByte u = true ->
  time.unitMap !! u = None ->
  time.parseUnits (S fuel) orig (ds ++ u) d = Some (Err (time.errInvalid orig))
  \/ (u = EmptyString
      /\ time.parseUnits (S fuel) orig (ds ++ u) d = Some (Err (time.errMissingUnit orig)))
  \/ (u <> EmptyString
      /\ time.parseUnits (S fuel) orig (ds ++ u) d
         = Some (Err (time.errUnknownUnit u orig))).
Proof.
  intros Hds Hu Hmap. unfold Shape.digits in Hds.
  apply andb_true_iff in Hds as [Hne Hds].
  destruct ds as [|c ds]; [discriminate|]. clear Hne.
  pose proof Hds as Hall. cbn [Shape.allBytes] in Hds.
  apply andb_true_iff in Hds as [Hc _].
  cbn [time.parseUnits]. rewrite append_String.
  cbn [time.isEmpty time.startsNumber].
  rewrite Hc, orb_true_r. cbn [negb]. rewrite <- append_String.
  unfold time.leadingInt.
  destruct (leadingInt_from_digits (String c ds) 0 u Hall (unitName_startsNumber u Hu))
    as [Herr|[v Hok]].
  - left. rewrite Herr. reflexivity.
  - rewrite Hok. rewrite (fraction_unitName u Hu), (unitSpan_unitName u Hu).
    rewrite length_append.
    replace (String.length (String c ds) + String.length u =? String.length u)%nat
      with false by (symmetry; apply Nat.eqb_neq; cbn [String.length]; lia).
    cbn [negb andb]. right.
    destruct u as [|cu u]; [left|right]; (split; [congruence|]).
    + reflexivity.
    + cbn [time.isEmpty]. rewrite Hmap. reflexivity.
Qed.

Lemma ParseDuration_digits_unit (ds u : string) :
  Shape.digits ds = true ->
  Shape.allBytes Shape.isUnitByte u = true ->
  time.unitMap !! u = None ->
  ds ++ u <> "0" ->
  time.ParseDuration (ds ++ u) = Err (time.errInvalid (ds ++ u))
  \/ (u = EmptyString /\ time.ParseDuration (ds ++ u) = Err (time.errMissingUnit (ds ++ u)))
  \/ (u <> EmptyString
      /\ time.ParseDuration (ds ++ u) = Err (time.errUnknownUnit u (ds ++ u))).
Proof.
  intros Hds Hu Hmap Hzero.
  unfold time.ParseDuration, time.ParseDuration_fuel.
  assert (exists c rest, ds ++ u = String c rest /\ time.isDigit c = true)
    as (c & rest & Hs & Hc).
  { unfold Shape.digits in Hds. apply andb_true_iff in Hds as [Hne Hall].
    destruct ds as [|c ds]; [discriminate|]. cbn [Shape.allBytes] in Hall.
    apply andb_true_iff in Hall as [Hc _]. exists c, (ds ++ u). split; [reflexivity | exact Hc]. }
  assert (time.stripSign (ds ++ u) = (false, ds ++ u)) as Hstrip.
  { rewrite Hs. unfold time.stripSign. rewrite (isDigit_not_sign c Hc). reflexivity. }
  rewrite Hstrip.
  apply String.eqb_neq in Hzero. rewrite Hzero.
  replace (time.isEmpty (ds ++ u)) with false by (rewrite Hs; reflexivity).
  assert (String.length (ds ++ u) = S (String.length rest)) as Hlen
    by (rewrite Hs; reflexivity).
  rewrite Hlen.
  destruct (parseUnits_digits_unit (String.length rest) (ds ++ u) ds u 0 Hds Hu Hmap)
    as [H|[[Hu0 H]|[Hu0 H]]]; rewrite H; auto.
Qed.

(** ** Model and object *)

Lemma Get_of_toObject (data : AccessTokenResource.AccessTokenResourceModel)
    (s : schema.Schema) :
  AccessTokenResource.Get {| tfsdk.Raw := Some (AccessTokenResource.toObject data);
                             tfsdk.Schema := s |}
  = ([], data).
Proof. destruct data. vm_compute. reflexivity. Qed.

(** X1.  What [Set] has written, [Get] reads back: on a state of the resource's
    schema, writing a model succeeds and reading the written state gives the
    same model, field by field. *)
Theorem set_then_get
    (r : AccessTokenResource.AccessTokenResource) (st : tfsdk.State)
    (data : AccessTokenResource.AccessTokenResourceModel) :
  tfsdk.Schema st = AccessTokenResource.Schema r ->
  exists st',
    AccessTokenResource.Set_ st data = ([], st')
    /\ AccessTokenResource.Get st' = ([], data).
Proof.
  intros Hs. eexists. split; [apply (Set_writes r); assumption|].
  apply Get_of_toObject.
Qed.

Lemma Read_fitting (r : AccessTokenResource.AccessTokenResource)
    (req : resource.ReadRequest) (resp : resource.Response)
    (m : gmap string tftypes.AttrValue) :
  tfsdk.Raw (resource.ReadState req) = Some m ->
  tfsdk.fits (AccessTokenResource.Schema r) m ->
  tfsdk.Schema (resource.ReadState req) = AccessTokenResource.Schema r ->
  tfsdk.Schema (resource.State resp) = AccessTokenResource.Schema r ->
  diag.HasError (resource.Diagnostics resp) = false ->
  AccessTokenResource.Read r req resp
  = {| resource.State := resource.ReadState req;
       resource.Diagnostics := resource.Diagnostics resp |}.
Proof.
  intros Hraw Hfit Hreq Hresp Hno.
  destruct (Get_toObject r _ m Hraw Hfit) as (data & Hget & Hobj).
  unfold AccessTokenResource.Read. rewrite Hget.
  unfold resource.appendDiagnostics. rewrite Append_nil.
  cbn [resource.Diagnostics resource.State]. rewrite Hno.
  rewrite (Set_writes r) by assumption. rewrite Append_nil, Hobj.
  destruct (resource.ReadState req) as [raw sch]. cbn in *. congruence.
Qed.

(** ** Delete and Update *)

(** X2.  [Delete] never writes the state, whatever it is given; and on a prior
    state that fits the resource schema it reports nothing either: the
    response comes back as it went in. *)
Theorem delete_changes_nothing
    (r : AccessTokenResource.AccessTokenResource)
    (req : resource.DeleteRequest) (resp : resource.Response) :
  resource.State (AccessTokenResource.Delete r req resp) = resource.State resp
  /\ (forall m,
        tfsdk.Raw (resource.DeleteState req) = Some m ->
        tfsdk.fits (AccessTokenResource.Schema r) m ->
        AccessTokenResource.Delete r req resp = resp).
Proof.
  split.
  - unfold AccessTokenResource.Delete.
    destruct (AccessTokenResource.Get _) as [ds data]. reflexivity.
  - intros m Hraw Hfit.
    destruct (Get_toObject r _ m Hraw Hfit) as (data & Hget & _).
    unfold AccessTokenResource.Delete. rewrite Hget.
    unfold resource.appendDiagnostics. rewrite Append_nil.
    destruct resp; reflexivity.
Qed.

(** X3.  On a plan that fits the resource schema, [Update] stores the plan as it
    is, the planned token included, and reports nothing: it neither parses
    [valid_for] nor signs. *)
Theorem update_stores_plan
    (r : AccessTokenResource.AccessTokenResource)
    (req : resource.UpdateRequest) (resp : resource.Response)
    (m : gmap string tftypes.AttrValue) :
  tfsdk.Raw (resource.UpdatePlan req) = Some m ->
  tfsdk.fits (AccessTokenResource.Schema r) m ->
  tfsdk.Schema (resource.State resp) = AccessTokenResource.Schema r ->
  diag.HasError (resource.Diagnostics resp) = false ->
  AccessTokenResource.Update r req resp
  = {| resource.State :=
         {| tfsdk.Raw := Some m; tfsdk.Schema := tfsdk.Schema (resource.State resp) |};
       resource.Diagnostics := resource.Diagnostics resp |}.
Proof.
  intros Hraw Hfit Hresp Hno.
  destruct (Get_toObject r _ m Hraw Hfit) as (data & Hget & Hobj).
  unfold AccessTokenResource.Update. rewrite Hget.
  unfold resource.appendDiagnostics. rewrite Append_nil.
  cbn [resource.Diagnostics resource.State]. rewrite Hno.
  rewrite (Set_writes r) by assumption. rewrite Append_nil, Hobj. reflexivity.
Qed.

(** ** Create followed by Read *)

Lemma Create_success_state
    (ToJWT : auth.AccessToken -> result string)
    (r r' : AccessTokenResource.AccessTokenResource)
    (req : resource.CreateRequest) (resp resp' : resource.Response) :
  AccessTokenResource.Create ToJWT r req resp = resource.Returned (r', resp') ->
  diag.HasError (resource.Diagnostics resp') = false ->
  exists data jwt,
    resource.State resp'
    = {| tfsdk.Raw :=
           Some (AccessTokenResource.toObject
                   (AccessTokenResource.withToken data (types.StringValue jwt)));
         tfsdk.Schema := tfsdk.Schema (resource.State resp) |}.
Proof.
  unfold AccessTokenResource.Create.
  destruct (AccessTokenResource.Get (resource.CreatePlan req)) as [ds data].
  destruct (diag.HasError (resource.Diagnostics (resource.appendDiagnostics resp ds)))
    eqn:Hearly; [intros [= <- <-] Hok; congruence|].
  destruct (time.ParseDuration _) as [validFor|e].
  2:{ intros [= <- <-] Hok. unfold resource.addError in Hok.
      cbn [resource.Diagnostics] in Hok. rewrite HasError_AddError in Hok. discriminate. }
  destruct (AccessTokenResource.apiKeys r) as [handle|]; [|discriminate].
  destruct (ToJWT _) as [jwt|e].
  2:{ intros [= <- <-] Hok. unfold resource.addError in Hok.
      cbn [resource.Diagnostics] in Hok. rewrite HasError_AddError in Hok. discriminate. }
  unfold AccessTokenResource.Set_, tfsdk.Set_.
  cbn [resource.State resource.appendDiagnostics].
  destruct (bool_decide _).
  - intros [= <- <-] _. eauto.
  - intros [= <- <-] Hok. cbn [resource.Diagnostics] in Hok.
    change (diag.HasError
              (diag.Append (diag.Append (resource.Diagnostics resp) ds)
                 [tfsdk.conversionError]) = false) in Hok.
    rewrite HasError_Append in Hok. cbn in Hok. rewrite orb_true_r in Hok. discriminate.
Qed.

(** X4.  The state a successful [Create] wrote is one [Read] returns unchanged:
    reading right after creating gives back the created state, token
    included, and reports nothing. *)
Theorem create_then_read
    (ToJWT : auth.AccessToken -> result string)
    (r r' : AccessTokenResource.AccessTokenResource)
    (req : resource.CreateRequest) (resp resp' readResp : resource.Response) :
  tfsdk.Schema (resource.State resp) = AccessTokenResource.Schema r ->
  AccessTokenResource.Create ToJWT r req resp = resource.Returned (r', resp') ->
  diag.HasError (resource.Diagnostics resp') = false ->
  tfsdk.Schema (resource.State readResp) = AccessTokenResource.Schema r ->
  diag.HasError (resource.Diagnostics readResp) = false ->
  AccessTokenResource.Read r' {| resource.ReadState := resource.State resp' |} readResp
  = {| resource.State := resource.State resp';
       resource.Diagnostics := resource.Diagnostics readResp |}.
Proof.
  intros Hs Hcreate Hok Hrs Hrno.
  destruct (Create_success_state _ _ _ _ _ _ Hcreate Hok) as (data & jwt & Hst).
  rewrite (Read_fitting r' {| resource.ReadState := resource.State resp' |} readResp
             (AccessTokenResource.toObject
                (AccessTokenResource.withToken data (types.StringValue jwt)))).
  - reflexivity.
  - cbn [resource.ReadState]. rewrite Hst. reflexivity.
  - apply toObject_fits.
  - cbn [resource.ReadState]. rewrite Hst. cbn [tfsdk.Schema]. exact Hs.
  - exact Hrs.
  - exact Hrno.
Qed.

(** ** Planning: which changes replace, and what the modifiers leave *)

Lemma Schema_attribute_cases (r : AccessTokenResource.AccessTokenResource)
    (name : string) (a : schema.Attribute) :
  schema.Attributes (AccessTokenResource.Schema r) !! name = Some a ->
  (name ∈ Spec.configurable /\ schema.PlanModifiers a = [schema.RequiresReplace])
  \/ (name = "token" /\ schema.PlanModifiers a = [schema.UseStateForUnknown]).
Proof.
  intros Ha.
  assert (name ∈ AccessTokenResource.fieldNames) as Hin.
  { replace AccessTokenResource.fieldNames
      with (dom (schema.Attributes (AccessTokenResource.Schema r)))
      by (vm_compute; reflexivity).
    apply elem_of_dom. eauto. }
  unfold AccessTokenResource.fieldNames in Hin.
  rewrite !elem_of_union, !elem_of_singleton in Hin.
  unfold Spec.configurable. rewrite !elem_of_cons, elem_of_nil.
  destruct Hin as [[[[[[->| ->]| ->]| ->]| ->]| ->]| ->];
    vm_compute in Ha; inversion Ha; subst a; clear Ha;
    first [ left; split; [tauto | reflexivity] | right; split; reflexivity ].
Qed.

(** X5.  Only a changed configurable attribute forces replacement: an attribute
    among those that force it is one of the six and its planned value differs
    from the state's.  So a plan that repeats the six stored values forces no
    replacement, whatever it says about the token. *)
Theorem replacement_only_on_change
    (r : AccessTokenResource.AccessTokenResource) (config : tftypes.Raw)
    (prior planned : AccessTokenResource.AccessTokenResourceModel) :
  (forall name,
      name ∈ schema.RequiresReplacePaths (AccessTokenResource.Schema r) config
               (Some (AccessTokenResource.toObject planned))
               (Some (AccessTokenResource.toObject prior)) ->
      name ∈ Spec.configurable
      /\ AccessTokenResource.toObject prior !! name
         <> AccessTokenResource.toObject planned !! name)
  /\ ((forall name, name ∈ Spec.configurable ->
         AccessTokenResource.toObject prior !! name
         = AccessTokenResource.toObject planned !! name) ->
      schema.RequiresReplacePaths (AccessTokenResource.Schema r) config
        (Some (AccessTokenResource.toObject planned))
        (Some (AccessTokenResource.toObject prior)) = ∅).
Proof.
  assert (forall name,
      name ∈ schema.RequiresReplacePaths (AccessTokenResource.Schema r) config
               (Some (AccessTokenResource.toObject planned))
               (Some (AccessTokenResource.toObject prior)) ->
      name ∈ Spec.configurable
      /\ AccessTokenResource.toObject prior !! name
         <> AccessTokenResource.toObject planned !! name) as Honly.
  { intros name Hin. unfold schema.RequiresReplacePaths in Hin.
    apply elem_of_dom in Hin as [a Ha].
    apply map_lookup_filter_Some in Ha as [Ha Hrep]. cbn [fst snd] in Hrep.
    unfold schema.modifyAttribute in Hrep.
    destruct (Schema_attribute_cases r name a Ha) as [[Hname Hmods]|[-> Hmods]];
      rewrite Hmods in Hrep.
    - split; [assumption|]. intros Heq.
      cbn [schema.runModifiers schema.PlanModify schema.StateRawIsNull
           schema.PlanRawIsNull schema.PlanValue schema.StateValue tftypes.RawIsNull
           schema.attributeValue schema.RespRequiresReplace orb] in Hrep.
      rewrite Heq in Hrep. rewrite bool_decide_eq_true_2 in Hrep by reflexivity.
      discriminate.
    - exfalso.
      cbn [schema.runModifiers schema.PlanModify schema.RespRequiresReplace orb] in Hrep.
      repeat match type of Hrep with
             | context [if ?c then _ else _] => destruct c
             end; discriminate. }
  split; [exact Honly|].
  intros Hsame. apply elem_of_equiv_empty_L. intros name Hin.
  destruct (Honly name Hin) as [Hname Hdiff]. apply Hdiff, Hsame, Hname.
Qed.

Lemma RequiresReplace_keeps_value (req : schema.ModifyRequest) (replace : bool) :
  schema.RespPlanValue (schema.runModifiers [schema.RequiresReplace] req replace)
  = schema.PlanValue req.
Proof.
  cbn [schema.runModifiers schema.PlanModify].
  repeat match goal with
         | |- context [if ?c then _ else _] => destruct c
         end; reflexivity.
Qed.

Lemma toObject_lookup_other (data : AccessTokenResource.AccessTokenResourceModel)
    (name : string) :
  name ∉ AccessTokenResource.fieldNames ->
  AccessTokenResource.toObject data !! name = None.
Proof.
  intros Hname. apply not_elem_of_dom.
  rewrite (fits_dom AccessTokenResource.NewAccessTokenResource _
             (toObject_fits AccessTokenResource.NewAccessTokenResource data)).
  exact Hname.
Qed.

(** The token the plan modifiers leave in the plan. *)
Lemma planned_token_cases (cfg prior planned : types.String) :
  exists tok,
    schema.RespPlanValue
      (schema.runModifiers [schema.UseStateForUnknown]
         {| schema.StateRawIsNull := false;
            schema.PlanRawIsNull := false;
            schema.ConfigValue := tftypes.StringVal cfg;
            schema.PlanValue := tftypes.StringVal planned;
            schema.StateValue := tftypes.StringVal prior |} false)
    = tftypes.StringVal tok
    /\ (planned <> types.Unknown -> tok = planned)
    /\ (planned = types.Unknown -> prior <> types.Null -> cfg <> types.Unknown ->
        tok = prior)
    /\ (tok = planned \/ tok = prior).
Proof.
  destruct planned as [| |p]; destruct prior as [| |q]; destruct cfg as [| |c];
    eexists; (split; [cbn; reflexivity|]);
    repeat split; intros; try congruence; auto.
Qed.

Lemma ModifiedPlan_toObject
    (r : AccessTokenResource.AccessTokenResource)
    (cfg prior planned : AccessTokenResource.AccessTokenResourceModel) :
  exists tok,
    schema.ModifiedPlan (AccessTokenResource.Schema r)
      (Some (AccessTokenResource.toObject cfg))
      (Some (AccessTokenResource.toObject planned))
      (Some (AccessTokenResource.toObject prior))
    = Some (AccessTokenResource.toObject (AccessTokenResource.withToken planned tok))
    /\ (AccessTokenResource.Token planned <> types.Unknown ->
        tok = AccessTokenResource.Token planned)
    /\ (AccessTokenResource.Token planned = types.Unknown ->
        AccessTokenResource.Token prior <> types.Null ->
        AccessTokenResource.Token cfg <> types.Unknown ->
        tok = AccessTokenResource.Token prior)
    /\ (tok = AccessTokenResource.Token planned \/ tok = AccessTokenResource.Token prior).
Proof.
  destruct (planned_token_cases (AccessTokenResource.Token cfg)
              (AccessTokenResource.Token prior) (AccessTokenResource.Token planned))
    as (tok & Htok & Hrest).
  exists tok. split; [|exact Hrest].
  unfold schema.ModifiedPlan. f_equal. apply map_eq. intros name.
  rewrite map_lookup_imap.
  destruct (schema.Attributes (AccessTokenResource.Schema r) !! name) as [a|] eqn:Ha;
    cbn [mbind option_bind].
  - unfold schema.modifyAttribute.
    destruct (Schema_attribute_cases r name a Ha) as [[Hname Hmods]|[-> Hmods]];
      rewrite Hmods.
    + rewrite RequiresReplace_keeps_value. cbn [schema.PlanValue schema.attributeValue].
      rewrite (toObject_withToken_configurable _ _ _ Hname).
      destruct (toObject_lookup_configurable planned name Hname) as [v ->].
      reflexivity.
    + assert (schema.Type_ a = tftypes.StringType) as Hty
        by (vm_compute in Ha; inversion Ha; reflexivity).
      cbn [schema.attributeValue tftypes.RawIsNull].
      rewrite !toObject_lookup_token, Hty. cbn [default from_option id]. unfold id.
      rewrite Htok. reflexivity.
  - symmetry. apply toObject_lookup_other. intros Hin.
    assert (name ∈ dom (schema.Attributes (AccessTokenResource.Schema r))) as Hdom
      by (replace (dom (schema.Attributes (AccessTokenResource.Schema r)))
            with AccessTokenResource.fieldNames by (vm_compute; reflexivity);
          exact Hin).
    apply elem_of_dom in Hdom as [a' Ha']. congruence.
Qed.

(** X6.  The plan modifiers never alter a configurable attribute: the plan they
    leave still fits the schema and holds every one of the six values as
    planned; a planned token that is known stays as planned too. *)
Theorem modifiers_keep_planned_attributes
    (r : AccessTokenResource.AccessTokenResource)
    (cfg prior planned : AccessTokenResource.AccessTokenResourceModel) :
  exists obj,
    schema.ModifiedPlan (AccessTokenResource.Schema r)
      (Some (AccessTokenResource.toObject cfg))
      (Some (AccessTokenResource.toObject planned))
      (Some (AccessTokenResource.toObject prior)) = Some obj
    /\ tfsdk.fits (AccessTokenResource.Schema r) obj
    /\ (forall name, name ∈ Spec.configurable ->
          obj !! name = AccessTokenResource.toObject planned !! name)
    /\ (AccessTokenResource.Token planned <> types.Unknown ->
        obj !! "token" = AccessTokenResource.toObject planned !! "token").
Proof.
  destruct (ModifiedPlan_toObject r cfg prior planned) as (tok & Hplan & Hknown & _).
  eexists. split; [exact Hplan|]. split; [apply toObject_fits|]. split.
  - intros name Hname. apply toObject_withToken_configurable, Hname.
  - intros Hk. rewrite !toObject_lookup_token, (Hknown Hk). reflexivity.
Qed.

Lemma toObject_same_configurable
    (prior planned : AccessTokenResource.AccessTokenResourceModel) :
  (forall name, name ∈ Spec.configurable ->
     AccessTokenResource.toObject planned !! name
     = AccessTokenResource.toObject prior !! name) ->
  AccessTokenResource.toObject
    (AccessTokenResource.withToken planned (AccessTokenResource.Token prior))
  = AccessTokenResource.toObject prior.
Proof.
  intros Hsame. apply map_eq. intros name.
  destruct (decide (name ∈ Spec.configurable)) as [Hc|Hc].
  - rewrite (toObject_withToken_configurable _ _ _ Hc). apply Hsame, Hc.
  - destruct (decide (name = "token")) as [->|Ht].
    + rewrite !toObject_lookup_token. reflexivity.
    + rewrite !toObject_lookup_other; [reflexivity| |];
        unfold AccessTokenResource.fieldNames;
        rewrite !elem_of_union, !elem_of_singleton;
        unfold Spec.configurable in Hc;
        rewrite !elem_of_cons, elem_of_nil in Hc; tauto.
Qed.

(** X7.  An update that changes nothing keeps the stored token.  When the plan
    repeats the six stored values and leaves the token unknown, the plan the
    modifiers produce is the stored object itself, and [Update] on that plan
    writes back exactly the stored state: no new token is issued. *)
Theorem unchanged_update_keeps_state
    (r : AccessTokenResource.AccessTokenResource) (resp : resource.Response)
    (cfg prior planned : AccessTokenResource.AccessTokenResourceModel) :
  (forall name, name ∈ Spec.configurable ->
     AccessTokenResource.toObject planned !! name
     = AccessTokenResource.toObject prior !! name) ->
  AccessTokenResource.Token planned = types.Unknown ->
  AccessTokenResource.Token prior <> types.Null ->
  AccessTokenResource.Token cfg <> types.Unknown ->
  tfsdk.Schema (resource.State resp) = AccessTokenResource.Schema r ->
  diag.HasError (resource.Diagnostics resp) = false ->
  schema.ModifiedPlan (AccessTokenResource.Schema r)
    (Some (AccessTokenResource.toObject cfg))
    (Some (AccessTokenResource.toObject planned))
    (Some (AccessTokenResource.toObject prior))
  = Some (AccessTokenResource.toObject prior)
  /\ AccessTokenResource.Update r
       {| resource.UpdatePlan :=
            {| tfsdk.Raw :=
                 schema.ModifiedPlan (AccessTokenResource.Schema r)
                   (Some (AccessTokenResource.toObject cfg))
                   (Some (AccessTokenResource.toObject planned))
                   (Some (AccessTokenResource.toObject prior));
               tfsdk.Schema := AccessTokenResource.Schema r |};
          resource.UpdateState :=
            {| tfsdk.Raw := Some (AccessTokenResource.toObject prior);
               tfsdk.Schema := AccessTokenResource.Schema r |} |}
       resp
     = {| resource.State :=
            {| tfsdk.Raw := Some (AccessTokenResource.toObject prior);
               tfsdk.Schema := tfsdk.Schema (resource.State resp) |};
          resource.Diagnostics := resource.Diagnostics resp |}.
Proof.
  intros Hsame Hplanned Hprior Hcfg Hschema Hno.
  destruct (ModifiedPlan_toObject r cfg prior planned) as (tok & Hplan & _ & Hstored & _).
  rewrite (Hstored Hplanned Hprior Hcfg) in Hplan.
  rewrite (toObject_same_configurable prior planned Hsame) in Hplan.
  split; [exact Hplan|]. rewrite Hplan.
  unfold AccessTokenResource.Update. cbn [resource.UpdatePlan].
  rewrite Get_of_toObject.
  unfold resource.appendDiagnostics. rewrite Append_nil.
  cbn [resource.Diagnostics resource.State]. rewrite Hno.
  rewrite (Set_writes r) by assumption. rewrite Append_nil. reflexivity.
Qed.

(** ** From the provider's credentials to the signed handle *)

(** X8.  The credentials the provider resolved are the ones tokens are signed
    with.  When [Configure] of the provider accepts a non-empty key and
    secret, a resource configured with the data it hands out reports nothing,
    and [Create] on a plan whose [valid_for] parses returns with a handle
    holding exactly that key and that secret. *)
Theorem configured_credentials_sign
    (ToJWT : auth.AccessToken -> result string)
    (env : os.Environ) (p : LivekitProvider.LivekitProvider)
    (preq : LivekitProvider.ConfigureRequest) (presp : LivekitProvider.ConfigureResponse)
    (pdata : LivekitProvider.LivekitProviderModel)
    (rresp : resource.ConfigureResponse)
    (req : resource.CreateRequest) (resp : resource.Response)
    (data : AccessTokenResource.AccessTokenResourceModel) (validFor : time.Duration) :
  LivekitProvider.Get (LivekitProvider.Config preq) = ([], pdata) ->
  diag.HasError (LivekitProvider.Diagnostics presp) = false ->
  Spec.resolve (LivekitProvider.ApiKey pdata) (os.Getenv env "LIVEKIT_API_KEY") <> "" ->
  Spec.resolve (LivekitProvider.ApiSecret pdata) (os.Getenv env "LIVEKIT_API_SECRET") <> "" ->
  AccessTokenResource.Get (resource.CreatePlan req) = ([], data) ->
  diag.HasError (resource.Diagnostics resp) = false ->
  time.ParseDuration (types.ValueString (AccessTokenResource.ValidFor data)) = Ok validFor ->
  exists r at_ resp',
    AccessTokenResource.Configure AccessTokenResource.NewAccessTokenResource
      {| resource.ConfigureProviderData :=
           framework.providerData
             (LivekitProvider.ResourceData (LivekitProvider.Configure env p preq presp)) |}
      rresp
    = (r, rresp)
    /\ AccessTokenResource.Create ToJWT r req resp
       = resource.Returned ({| AccessTokenResource.apiKeys := Some at_ |}, resp')
    /\ auth.apiKey at_
       = Spec.resolve (LivekitProvider.ApiKey pdata) (os.Getenv env "LIVEKIT_API_KEY")
    /\ auth.secret at_
       = Spec.resolve (LivekitProvider.ApiSecret pdata)
           (os.Getenv env "LIVEKIT_API_SECRET").
Proof.
  intros Hpget Hpno Hk Hs Hget Hno Hparse.
  assert (LivekitProvider.ResourceData (LivekitProvider.Configure env p preq presp)
          = Some (auth.NewAccessToken
                    (Spec.resolve (LivekitProvider.ApiKey pdata)
                       (os.Getenv env "LIVEKIT_API_KEY"))
                    (Spec.resolve (LivekitProvider.ApiSecret pdata)
                       (os.Getenv env "LIVEKIT_API_SECRET")))) as Hdata.
  { decoded_config Hpget Hpno. rewrite !Configure_resolved.
    apply String.eqb_neq in Hk, Hs. rewrite Hk, Hs.
    cbn [LivekitProvider.Diagnostics]. rewrite Hpno. reflexivity. }
  rewrite Hdata. cbn [framework.providerData].
  unfold AccessTokenResource.Configure. cbn [resource.ConfigureProviderData].
  set (k := Spec.resolve (LivekitProvider.ApiKey pdata) _) in *.
  set (s := Spec.resolve (LivekitProvider.ApiSecret pdata) _) in *.
  assert (exists at_ resp',
             AccessTokenResource.Create ToJWT
               {| AccessTokenResource.apiKeys := Some (auth.NewAccessToken k s) |} req resp
             = resource.Returned ({| AccessTokenResource.apiKeys := Some at_ |}, resp')
             /\ auth.apiKey at_ = k /\ auth.secret at_ = s)
    as (at_ & resp' & Hcreate & Hkey & Hsecret).
  { decoded_plan Hget Hno. rewrite Hparse. cbn [AccessTokenResource.apiKeys].
    destruct (ToJWT _) as [jwt|e]; [destruct (AccessTokenResource.Set_ _ _) as [ds st]|];
      do 2 eexists; (split; [reflexivity|]); split; reflexivity. }
  exists {| AccessTokenResource.apiKeys := Some (auth.NewAccessToken k s) |}, at_, resp'.
  repeat split; assumption.
Qed.

(** X9.  A resource that was never given a handle cannot create.  When [Configure]
    of the resource receives nil, or data of another type, the handle stays
    nil, and [Create] on a plan whose [valid_for] parses then panics instead
    of reporting a diagnostic. *)
Theorem create_without_handle_panics
    (ToJWT : auth.AccessToken -> result string)
    (pd : resource.ProviderData) (rresp : resource.ConfigureResponse)
    (req : resource.CreateRequest) (resp : resource.Response)
    (data : AccessTokenResource.AccessTokenResourceModel) (validFor : time.Duration) :
  (forall t, pd <> resource.AccessTokenPtr t) ->
  AccessTokenResource.Get (resource.CreatePlan req) = ([], data) ->
  diag.HasError (resource.Diagnostics resp) = false ->
  time.ParseDuration (types.ValueString (AccessTokenResource.ValidFor data)) = Ok validFor ->
  AccessTokenResource.Create ToJWT
    (fst (AccessTokenResource.Configure AccessTokenResource.NewAccessTokenResource
            {| resource.ConfigureProviderData := pd |} rresp))
    req resp
  = resource.Panicked.
Proof.
  intros Hpd Hget Hno Hparse.
  assert (fst (AccessTokenResource.Configure AccessTokenResource.NewAccessTokenResource
                 {| resource.ConfigureProviderData := pd |} rresp)
          = AccessTokenResource.NewAccessTokenResource) as ->.
  { unfold AccessTokenResource.Configure. cbn [resource.ConfigureProviderData].
    destruct pd as [|t|name]; [reflexivity | | reflexivity].
    exfalso. exact (Hpd t eq_refl). }
  decoded_plan Hget Hno. rewrite Hparse. reflexivity.
Qed.

(** X10.  [Create] overwrites whatever an earlier [Create] left in the shared
    handle.  Once the plan decodes and [valid_for] parses, two handles with
    the same key and secret give the same outcome, the same handle for the
    signer included: a token never carries a grant, an identity or a validity
    of an earlier request. *)
Theorem create_forgets_earlier_requests
    (ToJWT : auth.AccessToken -> result string)
    (h h' : auth.AccessToken)
    (req : resource.CreateRequest) (resp : resource.Response)
    (data : AccessTokenResource.AccessTokenResourceModel) (validFor : time.Duration) :
  auth.apiKey h = auth.apiKey h' ->
  auth.secret h = auth.secret h' ->
  AccessTokenResource.Get (resource.CreatePlan req) = ([], data) ->
  diag.HasError (resource.Diagnostics resp) = false ->
  time.ParseDuration (types.ValueString (AccessTokenResource.ValidFor data)) = Ok validFor ->
  AccessTokenResource.Create ToJWT {| AccessTokenResource.apiKeys := Some h |} req resp
  = AccessTokenResource.Create ToJWT {| AccessTokenResource.apiKeys := Some h' |} req resp.
Proof.
  intros Hk Hs Hget Hno Hparse.
  decoded_plan Hget Hno. rewrite Hparse. cbn [AccessTokenResource.apiKeys].
  unfold auth.SetValidFor, auth.SetIdentity, auth.AddGrant.
  cbn [auth.apiKey auth.secret auth.grant auth.Identity auth.Video auth.validFor].
  rewrite Hk, Hs. reflexivity.
Qed.

(** ** The provider with a credential missing *)

Lemma HasError_Append_error (ds : diag.Diagnostics) (d : diag.Diagnostic) :
  diag.isError d = true -> diag.HasError (diag.Append ds [d]) = true.
Proof.
  intros Hd. rewrite HasError_Append. cbn [diag.HasError existsb].
  rewrite Hd. apply orb_true_r.
Qed.

Lemma Configure_missing
    (env : os.Environ) (p : LivekitProvider.LivekitProvider)
    (req : LivekitProvider.ConfigureRequest) (resp : LivekitProvider.ConfigureResponse)
    (data : LivekitProvider.LivekitProviderModel) :
  LivekitProvider.Get (LivekitProvider.Config req) = ([], data) ->
  diag.HasError (LivekitProvider.Diagnostics resp) = false ->
  String.eqb (Spec.resolve (LivekitProvider.ApiKey data)
                (os.Getenv env "LIVEKIT_API_KEY")) ""
  || String.eqb (Spec.resolve (LivekitProvider.ApiSecret data)
                   (os.Getenv env "LIVEKIT_API_SECRET")) "" = true ->
  diag.HasError (LivekitProvider.Diagnostics (LivekitProvider.Configure env p req resp))
  = true
  /\ LivekitProvider.ResourceData (LivekitProvider.Configure env p req resp)
     = LivekitProvider.ResourceData resp
  /\ LivekitProvider.DataSourceData (LivekitProvider.Configure env p req resp)
     = LivekitProvider.DataSourceData resp.
Proof.
  intros Hget Hno Hmissing.
  decoded_config Hget Hno. rewrite !Configure_resolved.
  set (k := Spec.resolve (LivekitProvider.ApiKey data) _) in *.
  set (s := Spec.resolve (LivekitProvider.ApiSecret data) _) in *.
  destruct (String.eqb k "") eqn:Ek; destruct (String.eqb s "") eqn:Es;
    cbn [LivekitProvider.Diagnostics LivekitProvider.DataSourceData
         LivekitProvider.ResourceData].
  - rewrite (HasError_Append_error _ LivekitProvider.secretMissing eq_refl).
    cbn [LivekitProvider.Diagnostics LivekitProvider.DataSourceData
         LivekitProvider.ResourceData].
    rewrite (HasError_Append_error _ LivekitProvider.secretMissing eq_refl).
    repeat split; reflexivity.
  - rewrite (HasError_Append_error _ LivekitProvider.keyMissing eq_refl).
    cbn [LivekitProvider.Diagnostics LivekitProvider.DataSourceData
         LivekitProvider.ResourceData].
    rewrite (HasError_Append_error _ LivekitProvider.keyMissing eq_refl).
    repeat split; reflexivity.
  - rewrite (HasError_Append_error _ LivekitProvider.secretMissing eq_refl).
    cbn [LivekitProvider.Diagnostics LivekitProvider.DataSourceData
         LivekitProvider.ResourceData].
    rewrite (HasError_Append_error _ LivekitProvider.secretMissing eq_refl).
    repeat split; reflexivity.
  - discriminate.
Qed.

(** X11.  One missing credential is enough to stop the provider: when the resolved
    key or the resolved secret is empty, [Configure] reports an error and
    hands no handle to resources or data sources, even if the other
    credential is present. *)
Theorem configure_needs_both_credentials
    (env : os.Environ) (p : LivekitProvider.LivekitProvider)
    (req : LivekitProvider.ConfigureRequest) (resp : LivekitProvider.ConfigureResponse)
    (data : LivekitProvider.LivekitProviderModel) :
  LivekitProvider.Get (LivekitProvider.Config req) = ([], data) ->
  diag.HasError (LivekitProvider.Diagnostics resp) = false ->
  Spec.resolve (LivekitProvider.ApiKey data) (os.Getenv env "LIVEKIT_API_KEY") = ""
  \/ Spec.resolve (LivekitProvider.ApiSecret data) (os.Getenv env "LIVEKIT_API_SECRET") = "" ->
  diag.HasError (LivekitProvider.Diagnostics (LivekitProvider.Configure env p req resp))
  = true
  /\ LivekitProvider.ResourceData (LivekitProvider.Configure env p req resp)
     = LivekitProvider.ResourceData resp
  /\ LivekitProvider.DataSourceData (LivekitProvider.Configure env p req resp)
     = LivekitProvider.DataSourceData resp.
Proof.
  intros Hget Hno Hmissing. apply (Configure_missing env p req resp data Hget Hno).
  destruct Hmissing as [H|H]; rewrite H; [reflexivity | apply orb_true_r].
Qed.

(** X12.  An attribute that is set wins over the environment even when it is
    empty: with [api_key] or [api_secret] set to the empty string (or
    unknown), [Configure] fails whatever the environment variables hold. *)
Theorem configured_empty_overrides_environment
    (env : os.Environ) (p : LivekitProvider.LivekitProvider)
    (req : LivekitProvider.ConfigureRequest) (resp : LivekitProvider.ConfigureResponse)
    (data : LivekitProvider.LivekitProviderModel) :
  LivekitProvider.Get (LivekitProvider.Config req) = ([], data) ->
  diag.HasError (LivekitProvider.Diagnostics resp) = false ->
  (types.IsNull (LivekitProvider.ApiKey data) = false
   /\ types.ValueString (LivekitProvider.ApiKey data) = "")
  \/ (types.IsNull (LivekitProvider.ApiSecret data) = false
      /\ types.ValueString (LivekitProvider.ApiSecret data) = "") ->
  diag.HasError (LivekitProvider.Diagnostics (LivekitProvider.Configure env p req resp))
  = true
  /\ LivekitProvider.ResourceData (LivekitProvider.Configure env p req resp)
     = LivekitProvider.ResourceData resp.
Proof.
  intros Hget Hno Hset.
  destruct (Configure_missing env p req resp data Hget Hno) as (Herr & Hres & _).
  - unfold Spec.resolve.
    destruct Hset as [[Hnull Hval]|[Hnull Hval]]; rewrite Hnull, Hval;
      [reflexivity | apply orb_true_r].
  - split; assumption.
Qed.

(** ** [valid_for] strings that [Create] turns down *)

Lemma append_empty_r (s : string) : s ++ "" = s.
Proof. induction s as [|c s IH]; [reflexivity|]. rewrite append_String, IH. reflexivity. Qed.

Lemma Create_parse_error
    (ToJWT : auth.AccessToken -> result string)
    (r : AccessTokenResource.AccessTokenResource)
    (req : resource.CreateRequest) (resp : resource.Response)
    (data : AccessTokenResource.AccessTokenResourceModel) (e : error) :
  AccessTokenResource.Get (resource.CreatePlan req) = ([], data) ->
  diag.HasError (resource.Diagnostics resp) = false ->
  time.ParseDuration (types.ValueString (AccessTokenResource.ValidFor data)) = Err e ->
  AccessTokenResource.Create ToJWT r req resp
  = resource.Returned
      (r, {| resource.State := resource.State resp;
             resource.Diagnostics :=
               (resource.Diagnostics resp
                ++ [diag.NewErrorDiagnostic "Invalid valid_for " e])%list |}).
Proof.
  intros Hget Hno He. decoded_plan Hget Hno. rewrite He.
  unfold resource.addError. rewrite AddError_fresh by assumption. reflexivity.
Qed.

(** X13.  A number needs a unit.  A [valid_for] made of digits only, other than
    "0", is turned down by [Create] with the "Invalid valid_for " error: the
    parser reports a missing unit (or an overflow), so a plain count of
    seconds is not accepted. *)
Theorem create_rejects_bare_numbers
    (ToJWT : auth.AccessToken -> result string)
    (r : AccessTokenResource.AccessTokenResource)
    (req : resource.CreateRequest) (resp : resource.Response)
    (data : AccessTokenResource.AccessTokenResourceModel) (ds : string) :
  AccessTokenResource.Get (resource.CreatePlan req) = ([], data) ->
  diag.HasError (resource.Diagnostics resp) = false ->
  AccessTokenResource.ValidFor data = types.Known ds ->
  Shape.digits ds = true ->
  ds <> "0" ->
  exists e,
    (e = time.errMissingUnit ds \/ e = time.errInvalid ds)
    /\ AccessTokenResource.Create ToJWT r req resp
       = resource.Returned
           (r, {| resource.State := resource.State resp;
                  resource.Diagnostics :=
                    (resource.Diagnostics resp
                     ++ [diag.NewErrorDiagnostic "Invalid valid_for " e])%list |}).
Proof.
  intros Hget Hno Hvf Hds Hzero.
  assert (exists e, (e = time.errMissingUnit ds \/ e = time.errInvalid ds)
                    /\ time.ParseDuration ds = Err e) as (e & He & Hparse).
  { destruct (ParseDuration_digits_unit ds "" Hds eq_refl eq_refl)
      as [H|[[_ H]|[Hne _]]]; rewrite ?append_empty_r in *;
      [assumption | eauto | eauto | congruence]. }
  exists e. split; [exact He|].
  apply (Create_parse_error ToJWT r req resp data e Hget Hno).
  rewrite Hvf. exact Hparse.
Qed.

(** X14.  Days and weeks are not units.  A [valid_for] made of digits and a unit
    name the parser does not know is turned down by [Create] with the
    "Invalid valid_for " error; "d" and "w", the units of the examples "1d"
    and "1w" in the attribute's own description, are such names. *)
Theorem create_rejects_unknown_units
    (ToJWT : auth.AccessToken -> result string)
    (r : AccessTokenResource.AccessTokenResource)
    (req : resource.CreateRequest) (resp : resource.Response)
    (data : AccessTokenResource.AccessTokenResourceModel) (ds u : string) :
  AccessTokenResource.Get (resource.CreatePlan req) = ([], data) ->
  diag.HasError (resource.Diagnostics resp) = false ->
  AccessTokenResource.ValidFor data = types.Known (ds ++ u) ->
  Shape.digits ds = true ->
  Shape.unitName u = true ->
  time.unitMap !! u = None ->
  (exists e,
     (e = time.errUnknownUnit u (ds ++ u) \/ e = time.errInvalid (ds ++ u))
     /\ AccessTokenResource.Create ToJWT r req resp
        = resource.Returned
            (r, {| resource.State := resource.State resp;
                   resource.Diagnostics :=
                     (resource.Diagnostics resp
                      ++ [diag.NewErrorDiagnostic "Invalid valid_for " e])%list |}))
  /\ time.unitMap !! "d" = None
  /\ time.unitMap !! "w" = None
  /\ (exists a,
        schema.Attributes (AccessTokenResource.Schema r) !! "valid_for" = Some a
        /\ schema.MarkdownDescription a
           = "Validity duration of the token, e.g. 1h, 1d, 1w, etc.").
Proof.
  intros Hget Hno Hvf Hds Hu Hmap.
  split; [|split; [vm_compute; reflexivity | split; [vm_compute; reflexivity|]]].
  - unfold Shape.unitName in Hu. apply andb_true_iff in Hu as [Hne Hu].
    assert (ds ++ u <> "0") as Hzero.
    { intros H. apply (f_equal String.length) in H. rewrite length_append in H.
      unfold Shape.digits in Hds. apply andb_true_iff in Hds as [Hdne _].
      destruct ds; [discriminate|]. destruct u; [discriminate|].
      cbn [String.length] in H. lia. }
    assert (exists e, (e = time.errUnknownUnit u (ds ++ u) \/ e = time.errInvalid (ds ++ u))
                      /\ time.ParseDuration (ds ++ u) = Err e) as (e & He & Hparse).
    { destruct (ParseDuration_digits_unit ds u Hds Hu Hmap Hzero)
        as [H|[[Hu0 _]|[_ H]]]; [eauto | | eauto].
      subst u. discriminate. }
    exists e. split; [exact He|].
    apply (Create_parse_error ToJWT r req resp data e Hget Hno).
    rewrite Hvf. exact Hparse.
  - eexists. split; vm_compute; reflexivity.
Qed.

(** ** The sign of the parsed validity *)

Lemma uint64_range (z : Z) : 0 <= time.uint64 z < 2 ^ 64.
Proof. unfold time.uint64. apply Z.mod_pos_bound. lia. Qed.

Lemma int64_small (z : Z) : - 2 ^ 63 <= z < 2 ^ 63 -> time.int64 z = z.
Proof. intros H. unfold time.int64. rewrite Z.mod_small by lia. lia. Qed.

Lemma gtb_false (a b : Z) : (a >? b) = false -> a <= b.
Proof. intros H. rewrite Z.gtb_ltb in H. apply Z.ltb_ge. exact H. Qed.

Lemma parseUnits_bounds (fuel : nat) : forall (orig s : string) (d x : Z),
  time.parseUnits fuel orig s d = Some (Ok x) ->
  0 <= d <= 2 ^ 63 -> 0 <= x <= 2 ^ 63.
Proof.
  induction fuel as [|fuel IH]; intros orig s d x.
  - destruct s; cbn; [|intros ?; discriminate]. intros [= <-]. auto.
  - cbn [time.parseUnits].
    destruct (time.isEmpty s); [intros [= <-]; auto|].
    destruct (negb (time.startsNumber s)); [intros ?; discriminate|].
    destruct (time.leadingInt s) as [[v s1]|]; [|intros ?; discriminate].
    destruct (time.fraction s1) as [[[f scale] post] s2].
    destruct (negb _ && negb post); [intros ?; discriminate|].
    destruct (time.unitSpan s2) as [u s3].
    destruct (time.isEmpty u); [intros ?; discriminate|].
    destruct (time.unitMap !! u) as [unit|]; [|intros ?; discriminate].
    destruct (v >? 2 ^ 63 / unit); [intros ?; discriminate|].
    destruct ((f >? 0) && _); [intros ?; discriminate|].
    destruct (_ >? 2 ^ 63) eqn:Hd; [intros ?; discriminate|].
    intros H _. apply (IH _ _ _ _ H).
    split; [apply uint64_range | apply gtb_false, Hd].
Qed.

(** A parse that succeeds with little fuel and one original string succeeds
    with more fuel and any other, with the same value. *)
Lemma parseUnits_ok_mono (fuel : nat) : forall (orig s : string) (d x : Z),
  time.parseUnits fuel orig s d = Some (Ok x) ->
  forall (fuel' : nat) (orig' : string),
    (fuel <= fuel')%nat -> time.parseUnits fuel' orig' s d = Some (Ok x).
Proof.
  induction fuel as [|fuel IH]; intros orig s d x H fuel' orig' Hle.
  - destruct s; cbn in H; [|discriminate]. destruct fuel'; exact H.
  - destruct fuel' as [|fuel']; [lia|]. revert H. cbn [time.parseUnits].
    destruct (time.isEmpty s); [auto|].
    destruct (negb (time.startsNumber s)); [intros ?; discriminate|].
    destruct (time.leadingInt s) as [[v s1]|]; [|intros ?; discriminate].
    destruct (time.fraction s1) as [[[f scale] post] s2].
    destruct (negb _ && negb post); [intros ?; discriminate|].
    destruct (time.unitSpan s2) as [u s3].
    destruct (time.isEmpty u); [intros ?; discriminate|].
    destruct (time.unitMap !! u) as [unit|]; [|intros ?; discriminate].
    destruct (v >? 2 ^ 63 / unit); [intros ?; discriminate|].
    destruct ((f >? 0) && _); [intros ?; discriminate|].
    destruct (_ >? 2 ^ 63); [intros ?; discriminate|].
    intros H. apply (IH _ _ _ _ H). lia.
Qed.

Lemma stripSign_negative (s : string) :
  exists rest, time.stripSign s = (Shape.negative s, rest).
Proof.
  destruct s as [|c s]; [eexists; reflexivity|].
  unfold time.stripSign, Shape.negative.
  destruct (Ascii.eqb c "-") eqn:Em; cbn [orb].
  - eexists; reflexivity.
  - destruct (Ascii.eqb c "+"); eexists; reflexivity.
Qed.

(** X15.  The validity [Create] hands on has the sign the string shows: a
    [valid_for] that parses gives a duration within int64, at most zero when
    the string starts with a minus sign and at least zero otherwise. *)
Theorem parsed_validity_sign (s : string) (d : time.Duration) :
  time.ParseDuration s = Ok d ->
  (Shape.negative s = true -> - 2 ^ 63 <= d <= 0)
  /\ (Shape.negative s = false -> 0 <= d <= 2 ^ 63 - 1).
Proof.
  intros H. pose proof (ParseDuration_fuel_enough s) as Hfuel. rewrite H in Hfuel.
  unfold time.ParseDuration_fuel in Hfuel.
  destruct (stripSign_negative s) as [rest Hstrip]. rewrite Hstrip in Hfuel.
  destruct (String.eqb rest "0"); [inversion Hfuel; subst d; lia|].
  destruct (time.isEmpty rest); [discriminate|].
  destruct (time.parseUnits _ _ rest 0) as [[x|e]|] eqn:Hparse; try discriminate.
  assert (0 <= x <= 2 ^ 63) as Hx by (apply (parseUnits_bounds _ _ _ _ _ Hparse); lia).
  destruct (Shape.negative s).
  - inversion Hfuel; subst d. split; [intros _|intros ?; discriminate].
    destruct (Z.eq_dec x (2 ^ 63)) as [->|Hne].
    + vm_compute. split; intros ?; discriminate.
    + rewrite (int64_small x) by lia. rewrite int64_small by lia. lia.
  - destruct (x >? 2 ^ 63 - 1) eqn:Hmax; [discriminate|].
    apply gtb_false in Hmax.
    inversion Hfuel; subst d. split; [intros ?; discriminate|intros _].
    rewrite int64_small by lia. lia.
Qed.

(** X16.  A leading sign is all a sign is: when a [valid_for] without a sign
    parses to [d], the same string after a minus sign parses to [- d], and
    after a plus sign to [d]. *)
Theorem sign_prefix_negates (s : string) (d : time.Duration) :
  Shape.signed s = false ->
  time.ParseDuration s = Ok d ->
  time.ParseDuration (String "-" s) = Ok (- d)
  /\ time.ParseDuration (String "+" s) = Ok d.
Proof.
  intros Hsigned H. pose proof (ParseDuration_fuel_enough s) as Hfuel.
  rewrite H in Hfuel. unfold time.ParseDuration_fuel in Hfuel.
  assert (time.stripSign s = (false, s)) as Hstrip.
  { destruct s as [|c s]; [reflexivity|]. unfold time.stripSign.
    cbn [Shape.signed] in Hsigned. rewrite Hsigned. reflexivity. }
  rewrite Hstrip in Hfuel.
  unfold time.ParseDuration, time.ParseDuration_fuel.
  cbn [time.stripSign Ascii.eqb Bool.eqb orb andb String.length].
  change (Ascii.eqb "-" "-") with true. change (Ascii.eqb "+" "-") with false.
  change (Ascii.eqb "+" "+") with true. cbn [orb].
  destruct (String.eqb s "0"); [inversion Hfuel; subst d; split; reflexivity|].
  destruct (time.isEmpty s); [discriminate|].
  destruct (time.parseUnits (String.length s) s s 0) as [[x|e]|] eqn:Hparse;
    try discriminate.
  assert (0 <= x <= 2 ^ 63) as Hx by (apply (parseUnits_bounds _ _ _ _ _ Hparse); lia).
  destruct (x >? 2 ^ 63 - 1) eqn:Hmax; [discriminate|].
  pose proof (gtb_false _ _ Hmax) as Hle. inversion Hfuel; subst d.
  rewrite (parseUnits_ok_mono _ _ _ _ _ Hparse (S (String.length s)) (String "-" s))
    by lia.
  rewrite (parseUnits_ok_mono _ _ _ _ _ Hparse (S (String.length s)) (String "+" s))
    by lia.
  rewrite Hmax. rewrite !(int64_small x) by lia. rewrite int64_small by lia.
  split; reflexivity.
Qed.

(** ** Read and Update compute nothing *)

(** An object [Get] decodes is the encoding of the model it gives. *)
Lemma Get_decoded_raw (d : tfsdk.Data)
    (data : AccessTokenResource.AccessTokenResourceModel) :
  AccessTokenResource.Get d = ([], data) ->
  tfsdk.Raw d = Some (AccessTokenResource.toObject data).
Proof.
  unfold AccessTokenResource.Get, tfsdk.getString, tfsdk.getBool.
  destruct (tfsdk.Raw d) as [m|]; [|intros ?; discriminate].
  destruct (m !! "room") as [[room|?]|] eqn:Lroom; try (intros ?; discriminate).
  destruct (m !! "identity") as [[ident|?]|] eqn:Lident; try (intros ?; discriminate).
  destruct (m !! "can_publish") as [[?|cp]|] eqn:Lcp; try (intros ?; discriminate).
  destruct (m !! "can_publish_data") as [[?|cpd]|] eqn:Lcpd; try (intros ?; discriminate).
  destruct (m !! "can_subscribe") as [[?|cs]|] eqn:Lcs; try (intros ?; discriminate).
  destruct (m !! "valid_for") as [[vf|?]|] eqn:Lvf; try (intros ?; discriminate).
  destruct (m !! "token") as [[tok|?]|] eqn:Ltok; try (intros ?; discriminate).
  case_bool_decide as Hdom; [|intros ?; discriminate].
  intros [= <-]. f_equal. symmetry. apply map_eq. intros i.
  unfold AccessTokenResource.toObject.
  cbn [list_to_map foldr fst snd AccessTokenResource.Room AccessTokenResource.Identity
       AccessTokenResource.CanPublish AccessTokenResource.CanPublishData
       AccessTokenResource.CanSubscribe AccessTokenResource.ValidFor
       AccessTokenResource.Token].
  repeat (rewrite lookup_insert; case_decide; [subst i; congruence|]).
  rewrite lookup_empty. symmetry. apply not_elem_of_dom. intros Hin.
  apply Hdom in Hin. revert Hin. unfold AccessTokenResource.fieldNames.
  rewrite !elem_of_union, !elem_of_singleton. intuition congruence.
Qed.

(** X17.  [Read] and [Update] compute no value of their own: whatever they are
    given, the object in the state they return is the one the response
    already held or, unchanged, the one of the request (the prior state for
    [Read], the plan for [Update]). *)
Theorem read_and_update_copy
    (r : AccessTokenResource.AccessTokenResource) (resp : resource.Response) :
  (forall req,
      tfsdk.Raw (resource.State (AccessTokenResource.Read r req resp))
      = tfsdk.Raw (resource.State resp)
      \/ tfsdk.Raw (resource.State (AccessTokenResource.Read r req resp))
         = tfsdk.Raw (resource.ReadState req))
  /\ (forall req,
        tfsdk.Raw (resource.State (AccessTokenResource.Update r req resp))
        = tfsdk.Raw (resource.State resp)
        \/ tfsdk.Raw (resource.State (AccessTokenResource.Update r req resp))
           = tfsdk.Raw (resource.UpdatePlan req)).
Proof.
  split; intros req.
  - unfold AccessTokenResource.Read.
    destruct (AccessTokenResource.Get (resource.ReadState req)) as [ds data] eqn:Hget.
    destruct (diag.HasError _) eqn:Herr; [left; reflexivity|].
    destruct (Get_cases (resource.ReadState req)) as [[data' Hdec]|Hdec];
      rewrite Hdec in Hget; inversion Hget; subst.
    + unfold AccessTokenResource.Set_, tfsdk.Set_.
      destruct (bool_decide _); [right|left; reflexivity].
      cbn [resource.State tfsdk.Raw]. symmetry. apply Get_decoded_raw, Hdec.
    + cbn [resource.appendDiagnostics resource.Diagnostics] in Herr.
      rewrite HasError_Append in Herr. cbn in Herr. rewrite orb_true_r in Herr.
      discriminate.
  - unfold AccessTokenResource.Update.
    destruct (AccessTokenResource.Get (resource.UpdatePlan req)) as [ds data] eqn:Hget.
    destruct (diag.HasError _) eqn:Herr; [left; reflexivity|].
    destruct (Get_cases (resource.UpdatePlan req)) as [[data' Hdec]|Hdec];
      rewrite Hdec in Hget; inversion Hget; subst.
    + unfold AccessTokenResource.Set_, tfsdk.Set_.
      destruct (bool_decide _); [right|left; reflexivity].
      cbn [resource.State tfsdk.Raw]. symmetry. apply Get_decoded_raw, Hdec.
    + cbn [resource.appendDiagnostics resource.Diagnostics] in Herr.
      rewrite HasError_Append in Herr. cbn in Herr. rewrite orb_true_r in Herr.
      discriminate.
Qed.

(** ** The further properties at sample inputs *)

Lemma set_then_get_witness :
  exists st',
    AccessTokenResource.Set_ (Sample.data None) (Sample.model "1h") = ([], st')
    /\ AccessTokenResource.Get st' = ([], Sample.model "1h").
Proof. apply (set_then_get Sample.resource_ (Sample.data None)). reflexivity. Defined.

Lemma delete_changes_nothing_witness :
  AccessTokenResource.Delete Sample.resource_
    {| resource.DeleteState := Sample.data (Some Sample.stored) |} Sample.response
  = Sample.response.
Proof.
  apply (proj2 (delete_changes_nothing Sample.resource_
                  {| resource.DeleteState := Sample.data (Some Sample.stored) |}
                  Sample.response) Sample.stored).
  - reflexivity.
  - apply toObject_fits.
Defined.

Lemma update_stores_plan_witness :
  AccessTokenResource.Update Sample.resource_
    {| resource.UpdatePlan := Sample.data (Some Sample.stored);
       resource.UpdateState := Sample.data (Some Sample.stored) |}
    Sample.response
  = {| resource.State := Sample.data (Some Sample.stored); resource.Diagnostics := [] |}.
Proof.
  apply (update_stores_plan Sample.resource_
           {| resource.UpdatePlan := Sample.data (Some Sample.stored);
              resource.UpdateState := Sample.data (Some Sample.stored) |}
           Sample.response Sample.stored).
  - reflexivity.
  - apply toObject_fits.
  - reflexivity.
  - reflexivity.
Defined.

Lemma create_then_read_witness :
  AccessTokenResource.Read {| AccessTokenResource.apiKeys := Some Sample.issued |}
    {| resource.ReadState := Sample.data (Some Sample.stored) |} Sample.response
  = {| resource.State := Sample.data (Some Sample.stored); resource.Diagnostics := [] |}.
Proof.
  apply (create_then_read Sample.ToJWT Sample.resource_
           {| AccessTokenResource.apiKeys := Some Sample.issued |}
           (Sample.create "1h") Sample.response
           {| resource.State := Sample.data (Some Sample.stored);
              resource.Diagnostics := [] |}
           Sample.response).
  - reflexivity.
  - vm_compute. reflexivity.
  - reflexivity.
  - reflexivity.
  - reflexivity.
Defined.

Lemma replacement_only_on_change_witness :
  schema.RequiresReplacePaths (AccessTokenResource.Schema Sample.resource_) None
    (Some (AccessTokenResource.toObject (Sample.model "1h")))
    (Some Sample.stored) = ∅.
Proof.
  apply (proj2 (replacement_only_on_change Sample.resource_ None
                  (AccessTokenResource.withToken (Sample.model "1h")
                     (types.StringValue "jwt.alice"))
                  (Sample.model "1h"))).
  intros name Hname. apply toObject_withToken_configurable, Hname.
Defined.

Lemma unchanged_update_keeps_state_witness :
  AccessTokenResource.Update Sample.resource_
    {| resource.UpdatePlan :=
         {| tfsdk.Raw :=
              schema.ModifiedPlan (AccessTokenResource.Schema Sample.resource_)
                (Some (AccessTokenResource.toObject
                         (AccessTokenResource.withToken (Sample.model "1h") types.Null)))
                (Some (AccessTokenResource.toObject (Sample.model "1h")))
                (Some Sample.stored);
            tfsdk.Schema := AccessTokenResource.Schema Sample.resource_ |};
       resource.UpdateState := Sample.data (Some Sample.stored) |}
    Sample.response
  = {| resource.State := Sample.data (Some Sample.stored); resource.Diagnostics := [] |}.
Proof.
  apply (proj2 (unchanged_update_keeps_state Sample.resource_ Sample.response
                  (AccessTokenResource.withToken (Sample.model "1h") types.Null)
                  (AccessTokenResource.withToken (Sample.model "1h")
                     (types.StringValue "jwt.alice"))
                  (Sample.model "1h")
                  ltac:(intros name Hname; symmetry;
                        apply toObject_withToken_configurable, Hname)
                  eq_refl ltac:(discriminate) ltac:(discriminate) eq_refl eq_refl)).
Defined.

Lemma configured_credentials_sign_witness :
  exists r at_ resp',
    AccessTokenResource.Configure AccessTokenResource.NewAccessTokenResource
      {| resource.ConfigureProviderData :=
           framework.providerData
             (LivekitProvider.ResourceData
                (LivekitProvider.Configure Sample.secretInEnv Sample.provider
                   (Sample.configure (types.Known "cfgkey") types.Null)
                   Sample.configureResponse)) |}
      {| resource.ConfigureDiagnostics := [] |}
    = (r, {| resource.ConfigureDiagnostics := [] |})
    /\ AccessTokenResource.Create Sample.ToJWT r (Sample.create "30m") Sample.response
       = resource.Returned ({| AccessTokenResource.apiKeys := Some at_ |}, resp')
    /\ auth.apiKey at_ = "cfgkey"
    /\ auth.secret at_ = "envsecret".
Proof.
  apply (configured_credentials_sign Sample.ToJWT Sample.secretInEnv Sample.provider
           (Sample.configure (types.Known "cfgkey") types.Null) Sample.configureResponse
           {| LivekitProvider.ApiKey := types.Known "cfgkey";
              LivekitProvider.ApiSecret := types.Null |}
           {| resource.ConfigureDiagnostics := [] |}
           (Sample.create "30m") Sample.response (Sample.model "30m")
           (30 * time.Minute)).
  - vm_compute. reflexivity.
  - reflexivity.
  - vm_compute. discriminate.
  - vm_compute. discriminate.
  - vm_compute. reflexivity.
  - reflexivity.
  - vm_compute. reflexivity.
Defined.

Lemma create_without_handle_panics_witness :
  AccessTokenResource.Create Sample.ToJWT
    (fst (AccessTokenResource.Configure AccessTokenResource.NewAccessTokenResource
            {| resource.ConfigureProviderData := resource.nil |}
            {| resource.ConfigureDiagnostics := [] |}))
    (Sample.create "1h") Sample.response
  = resource.Panicked.
Proof.
  apply (create_without_handle_panics Sample.ToJWT resource.nil
           {| resource.ConfigureDiagnostics := [] |}
           (Sample.create "1h") Sample.response (Sample.model "1h") time.Hour).
  - discriminate.
  - vm_compute. reflexivity.
  - reflexivity.
  - vm_compute. reflexivity.
Defined.

Lemma create_forgets_earlier_requests_witness :
  AccessTokenResource.Create Sample.ToJWT
    {| AccessTokenResource.apiKeys := Some (auth.NewAccessToken "APIkey" "secret") |}
    (Sample.create "30m") Sample.response
  = AccessTokenResource.Create Sample.ToJWT
      {| AccessTokenResource.apiKeys := Some Sample.issued |}
      (Sample.create "30m") Sample.response.
Proof.
  apply (create_forgets_earlier_requests Sample.ToJWT
           (auth.NewAccessToken "APIkey" "secret") Sample.issued
           (Sample.create "30m") Sample.response (Sample.model "30m")
           (30 * time.Minute)).
  - reflexivity.
  - reflexivity.
  - vm_compute. reflexivity.
  - reflexivity.
  - vm_compute. reflexivity.
Defined.

Lemma configure_needs_both_credentials_witness :
  diag.HasError
    (LivekitProvider.Diagnostics
       (LivekitProvider.Configure ∅ Sample.provider
          (Sample.configure (types.Known "cfgkey") types.Null)
          Sample.configureResponse)) = true
  /\ LivekitProvider.ResourceData
       (LivekitProvider.Configure ∅ Sample.provider
          (Sample.configure (types.Known "cfgkey") types.Null)
          Sample.configureResponse) = None
  /\ LivekitProvider.DataSourceData
       (LivekitProvider.Configure ∅ Sample.provider
          (Sample.configure (types.Known "cfgkey") types.Null)
          Sample.configureResponse) = None.
Proof.
  apply (configure_needs_both_credentials ∅ Sample.provider
           (Sample.configure (types.Known "cfgkey") types.Null)
           Sample.configureResponse
           {| LivekitProvider.ApiKey := types.Known "cfgkey";
              LivekitProvider.ApiSecret := types.Null |}).
  - vm_compute. reflexivity.
  - reflexivity.
  - right. reflexivity.
Defined.

Lemma configured_empty_overrides_environment_witness :
  diag.HasError
    (LivekitProvider.Diagnostics
       (LivekitProvider.Configure Fixture.bothInEnv Sample.provider
          (Sample.configure (types.Known "") types.Null)
          Sample.configureResponse)) = true
  /\ LivekitProvider.ResourceData
       (LivekitProvider.Configure Fixture.bothInEnv Sample.provider
          (Sample.configure (types.Known "") types.Null)
          Sample.configureResponse) = None.
Proof.
  apply (configured_empty_overrides_environment Fixture.bothInEnv Sample.provider
           (Sample.configure (types.Known "") types.Null)
           Sample.configureResponse
           {| LivekitProvider.ApiKey := types.Known "";
              LivekitProvider.ApiSecret := types.Null |}).
  - vm_compute. reflexivity.
  - reflexivity.
  - left. split; reflexivity.
Defined.

Lemma create_rejects_bare_numbers_witness :
  exists e,
    (e = time.errMissingUnit "3600" \/ e = time.errInvalid "3600")
    /\ AccessTokenResource.Create Sample.ToJWT Sample.resource_ (Sample.create "3600")
         Sample.response
       = resource.Returned
           (Sample.resource_,
            {| resource.State := Sample.data None;
               resource.Diagnostics :=
                 [diag.NewErrorDiagnostic "Invalid valid_for " e] |}).
Proof.
  apply (create_rejects_bare_numbers Sample.ToJWT Sample.resource_
           (Sample.create "3600") Sample.response (Sample.model "3600") "3600").
  - vm_compute. reflexivity.
  - reflexivity.
  - reflexivity.
  - reflexivity.
  - discriminate.
Defined.

Lemma create_rejects_unknown_units_witness :
  exists e,
    (e = time.errUnknownUnit "d" "1d" \/ e = time.errInvalid "1d")
    /\ AccessTokenResource.Create Sample.ToJWT Sample.resource_ (Sample.create "1d")
         Sample.response
       = resource.Returned
           (Sample.resource_,
            {| resource.State := Sample.data None;
               resource.Diagnostics :=
                 [diag.NewErrorDiagnostic "Invalid valid_for " e] |}).
Proof.
  apply (proj1 (create_rejects_unknown_units Sample.ToJWT Sample.resource_
                  (Sample.create "1d") Sample.response (Sample.model "1d") "1" "d"
                  ltac:(vm_compute; reflexivity) eq_refl eq_refl eq_refl eq_refl
                  ltac:(vm_compute; reflexivity))).
Defined.

Lemma parsed_validity_sign_witness : - 2 ^ 63 <= - time.Hour <= 0.
Proof.
  apply (proj1 (parsed_validity_sign "-1h" (- time.Hour)
                  ltac:(vm_compute; reflexivity))).
  reflexivity.
Defined.

Lemma sign_prefix_negates_witness :
  time.ParseDuration "-1h30m" = Ok (- (time.Hour + 30 * time.Minute))
  /\ time.ParseDuration "+1h30m" = Ok (time.Hour + 30 * time.Minute).
Proof.
  apply (sign_prefix_negates "1h30m" (time.Hour + 30 * time.Minute)).
  - reflexivity.
  - vm_compute. reflexivity.
Defined.
